(** * Eyecursor: a shallow embedding of [eyecursorfinal.py]

    The development follows the class [EyeTrackerCursor]:

    - [Py] and [Np] collect the few Python and numpy operations the
      tracker relies on (negative indexing, [int()], reductions);
    - [FeatureExtractor] embeds [calculate_eye_aspect_ratio] and
      [extract_eye_features] over IEEE binary64 numbers, because what
      they do on a zero denominator is an IEEE matter;
    - [Calibration] embeds [calibrate];
    - [Control] embeds [switch_mode], [handle_blink], [handle_scroll] and
      [smooth_movement] over exact rationals, the usual idealisation of
      floating point for threshold and interpolation arithmetic.

    The loop of [run] is not embedded as a whole (the predictions come
    from sklearn); of its body, the two reads that feed [handle_blink]
    are kept as [Control.run_ears], and what one iteration does with a
    prediction, and what each key does, as [Run]. [Persistence] embeds
    [save_models], [load_models] and [save_blink_calibration] over a
    disk of pickles, [BlinkCalibrator] embeds
    [calibrate_blink_threshold]. [Binary64.handle_scroll] is
    [handle_scroll] with the arithmetic of the interpreter, for the
    statements that depend on rounding. Console output ([print]) and
    window drawing ([cv2]) are left out; the calls to [pyautogui] are
    kept as a trace of actuations. *)

From Stdlib Require Import String.
From Stdlib Require Import ZArith List Bool Lia.
From Stdlib Require Import QArith Qround Qminmax Lqa.
From Stdlib Require Import Qabs.
From Stdlib Require Import PrimFloat FloatOps SpecFloat Uint63.
Import ListNotations.

Set Warnings "-inexact-float".
Set Implicit Arguments.

(* ================================================================== *)
(** * Python and numpy primitives *)

Module Py.

(** Exceptions are modelled by [option]: [None] is a raised
    exception that nothing in the tracker catches. *)
Definition bind {A B} (m : option A) (k : A -> option B) : option B :=
  match m with
  | Some a => k a
  | None => None
  end.

Fixpoint mapM {A B} (f : A -> option B) (l : list A) : option (list B) :=
  match l with
  | [] => Some []
  | a :: l' =>
      match f a with
      | None => None
      | Some b =>
          match mapM f l' with
          | None => None
          | Some bs => Some (b :: bs)
          end
      end
  end.

(** [l[i]] on a sequence: a negative index counts from the end, an
    index out of range raises [IndexError]. *)
Definition index {A} (l : list A) (i : Z) : option A :=
  let n := Z.of_nat (List.length l) in
  if (0 <=? i)%Z then nth_error l (Z.to_nat i)
  else if (0 <=? n + i)%Z then nth_error l (Z.to_nat (n + i))
  else None.

(** [int(f)] on a float: truncation toward zero; [int(nan)] and
    [int(inf)] raise. *)
Definition int (f : float) : option Z :=
  match Prim2SF f with
  | S754_zero _ => Some 0%Z
  | S754_finite s m e =>
      let v := (if 0 <=? e then Z.pos m * 2 ^ e
                else Z.pos m / 2 ^ (- e))%Z in
      Some (if s then (- v)%Z else v)
  | S754_infinity _ => None
  | S754_nan => None
  end.

(** The float an [int] operand is converted to in mixed arithmetic
    (exact below 2^53; the tracker only converts screen sizes and
    list lengths). *)
Definition float (n : Z) : float :=
  if (0 <=? n)%Z then PrimFloat.of_uint63 (Uint63.of_Z n)
  else PrimFloat.opp (PrimFloat.of_uint63 (Uint63.of_Z (- n))).

(** [int(q)] on an exact rational: truncation toward zero. *)
Definition trunc (q : Q) : Z := Z.quot (Qnum q) (Z.pos (Qden q)).

End Py.

Notation "x <- e ;; k" := (Py.bind e (fun x => k))
  (at level 61, e at next level, right associativity).

Module Np.

Definition is_nan (a : float) : bool := negb (PrimFloat.eqb a a).

(** Elementwise [a - b], [a + b] on 1-D arrays of equal shape. *)
Fixpoint sub (a b : list float) : list float :=
  match a, b with
  | u :: a', v :: b' => PrimFloat.sub u v :: sub a' b'
  | _, _ => []
  end.

Fixpoint add (a b : list float) : list float :=
  match a, b with
  | u :: a', v :: b' => PrimFloat.add u v :: add a' b'
  | _, _ => []
  end.

(** [np.sum] of a 1-D array, accumulated left to right from its first
    entry (numpy may group the additions of a long array otherwise). *)
Definition sum (v : list float) : float :=
  match v with
  | [] => 0%float
  | a :: v' => fold_left PrimFloat.add v' a
  end.

(** [np.linalg.norm] of a 1-D array: the 2-norm. *)
Definition linalg_norm (v : list float) : float :=
  PrimFloat.sqrt (sum (map (fun u => PrimFloat.mul u u) v)).

(** [np.mean(rows, axis=0)]: the column sums, started from the first
    row, divided by the number of rows. *)
Definition mean_axis0 (rows : list (list float)) : list float :=
  match rows with
  | [] => []
  | r :: rs =>
      map (fun s => PrimFloat.div s (Py.float (Z.of_nat (List.length rows))))
          (fold_left add rs r)
  end.

(** [np.mean] of a 1-D array. *)
Definition mean (v : list float) : float :=
  PrimFloat.div (sum v) (Py.float (Z.of_nat (List.length v))).

(** numpy's sort order: ascending, NaN last. *)
Definition le (a b : float) : bool :=
  if is_nan b then true
  else if is_nan a then false
  else PrimFloat.leb a b.

Fixpoint insert_by {A} (key : A -> float) (a : A) (l : list A) : list A :=
  match l with
  | [] => [a]
  | b :: l' => if le (key a) (key b) then a :: l
               else b :: insert_by key a l'
  end.

(** Sorting by a key. Equal keys keep their order of arrival; numpy's
    default sort leaves their order open. *)
Definition sort_by {A} (key : A -> float) (l : list A) : list A :=
  fold_right (insert_by key) [] l.

Definition sort : list float -> list float := sort_by (fun a => a).

(** [np.median] of a 1-D array: the middle value of the sorted array,
    or the mean of the two middle values; NaN as soon as one entry is
    NaN. *)
Definition median (v : list float) : float :=
  let s := sort v in
  let n := List.length v in
  if existsb is_nan v then PrimFloat.nan
  else if Nat.even n
       then mean [nth (n / 2 - 1) s PrimFloat.nan; nth (n / 2) s PrimFloat.nan]
       else nth (n / 2) s PrimFloat.nan.

(** Column [j] of a 2-D array. *)
Definition column (j : nat) (rows : list (list float)) : list float :=
  map (fun r => nth j r PrimFloat.nan) rows.

(** [np.median(rows, axis=0)]. *)
Definition median_axis0 (rows : list (list float)) : list float :=
  match rows with
  | [] => []
  | r :: _ => map (fun j => median (column j rows)) (seq 0 (List.length r))
  end.

(** [np.argsort]: the indices that sort the array. *)
Definition argsort (v : list float) : list nat :=
  map fst (sort_by snd (combine (seq 0 (List.length v)) v)).

End Np.

(* ================================================================== *)
(** * Feature extraction *)

(** One MediaPipe landmark: the fields [x], [y], [z] of
    [results.multi_face_landmarks[0].landmark[i]]. *)
Record Landmark : Type := mkLandmark {
  lm_x : float;
  lm_y : float;
  lm_z : float
}.

Definition FeatureVector : Type := list float.

Module FeatureExtractor.

Definition LEFT_EYE : list nat :=
  [362; 382; 381; 380; 374; 373; 390; 249; 263; 466; 388; 387; 386; 385; 384; 398]%nat.
Definition RIGHT_EYE : list nat :=
  [33; 7; 163; 144; 145; 153; 154; 155; 133; 173; 157; 158; 159; 160; 161; 246]%nat.
Definition LEFT_IRIS : list nat := [474; 475; 476; 477]%nat.
Definition RIGHT_IRIS : list nat := [469; 470; 471; 472]%nat.

(** [[landmarks[i].x, landmarks[i].y]]. *)
Definition xy (landmarks : list Landmark) (i : nat) : option (list float) :=
  p <- nth_error landmarks i ;; Some [lm_x p; lm_y p].

(** [np.array([[landmarks[i].x, landmarks[i].y] for i in idxs])]. *)
Definition contour (landmarks : list Landmark) (idxs : list nat)
  : option (list (list float)) :=
  Py.mapM (xy landmarks) idxs.

(** The two denominators of the feature computation, under the names
    the source gives them: [h] in [calculate_eye_aspect_ratio] and
    [face_width] in [extract_eye_features]. *)
Definition h (eye_landmarks : list (list float)) : option float :=
  p0 <- nth_error eye_landmarks 0 ;;
  p8 <- nth_error eye_landmarks 8 ;;
  Some (Np.linalg_norm (Np.sub p0 p8)).

Definition face_width_of (landmarks : list Landmark) : option float :=
  ll <- nth_error landmarks (nth 0 LEFT_EYE 0%nat) ;;
  rr <- nth_error landmarks (nth 8 RIGHT_EYE 0%nat) ;;
  let left_eye_left := [lm_x ll; lm_y ll; lm_z ll] in
  let right_eye_right := [lm_x rr; lm_y rr; lm_z rr] in
  Some (Np.linalg_norm (Np.sub right_eye_right left_eye_left)).

Definition calculate_eye_aspect_ratio (eye_landmarks : list (list float))
  : option float :=
  p1 <- nth_error eye_landmarks 1 ;;
  p5 <- nth_error eye_landmarks 5 ;;
  let v1 := Np.linalg_norm (Np.sub p1 p5) in
  p2 <- nth_error eye_landmarks 2 ;;
  p4 <- nth_error eye_landmarks 4 ;;
  let v2 := Np.linalg_norm (Np.sub p2 p4) in
  p3 <- nth_error eye_landmarks 3 ;;
  p7 <- nth_error eye_landmarks 7 ;;
  let v3 := Np.linalg_norm (Np.sub p3 p7) in
  h <- h eye_landmarks ;;
  let ear := ((v1 + v2 + v3) / (3.0 * h))%float in
  Some ear.

Section WithArctan2.

(** [np.arctan2] is the one operation binary64 arithmetic does not
    determine; the extractor is stated for any implementation. *)
Variable arctan2 : float -> float -> float.

(** The values [extract_eye_features] computes before it
    concatenates them, under the names of its local variables. *)
Record Measurements : Type := mkMeasurements {
  left_eye_center : list float;
  right_eye_center : list float;
  left_iris_mean : list float;
  right_iris_mean : list float;
  left_ear : float;
  right_ear : float;
  left_iris_to_corner : float;
  right_iris_to_corner : float;
  nose_xy : list float;
  chin_xy : list float;
  head_pitch : float;
  head_yaw : float;
  left_iris_rel_x : float;
  right_iris_rel_x : float;
  face_width : float
}.

Definition measure (landmarks : list Landmark) : option Measurements :=
  left_eye_landmarks <- contour landmarks LEFT_EYE ;;
  right_eye_landmarks <- contour landmarks RIGHT_EYE ;;
  left_iris <- contour landmarks LEFT_IRIS ;;
  right_iris <- contour landmarks RIGHT_IRIS ;;
  let left_eye_center := Np.mean_axis0 left_iris in
  let right_eye_center := Np.mean_axis0 right_iris in
  left_ear <- calculate_eye_aspect_ratio (firstn 9 left_eye_landmarks) ;;
  right_ear <- calculate_eye_aspect_ratio (firstn 9 right_eye_landmarks) ;;
  left_corner <- nth_error left_eye_landmarks 0 ;;
  right_corner <- nth_error right_eye_landmarks 0 ;;
  let left_iris_to_corner :=
    Np.linalg_norm (Np.sub left_eye_center left_corner) in
  let right_iris_to_corner :=
    Np.linalg_norm (Np.sub right_eye_center right_corner) in
  l1 <- nth_error landmarks 1 ;;
  l199 <- nth_error landmarks 199 ;;
  ll <- nth_error landmarks (nth 0 LEFT_EYE 0%nat) ;;
  rr <- nth_error landmarks (nth 8 RIGHT_EYE 0%nat) ;;
  let head_pitch :=
    arctan2 (lm_y l199 - lm_y l1)%float (lm_z l199 - lm_z l1)%float in
  let head_yaw :=
    arctan2 (lm_x rr - lm_x ll)%float (lm_z rr - lm_z ll)%float in
  face_width <- face_width_of landmarks ;;
  lc_x <- nth_error left_eye_center 0 ;;
  lcorner_x <- nth_error left_corner 0 ;;
  rc_x <- nth_error right_eye_center 0 ;;
  rcorner_x <- nth_error right_corner 0 ;;
  let left_iris_rel_x := ((lc_x - lcorner_x) / face_width)%float in
  let right_iris_rel_x := ((rc_x - rcorner_x) / face_width)%float in
  Some (mkMeasurements left_eye_center right_eye_center
          (Np.mean_axis0 left_iris) (Np.mean_axis0 right_iris)
          left_ear right_ear left_iris_to_corner right_iris_to_corner
          [lm_x l1; lm_y l1] [lm_x l199; lm_y l199]
          head_pitch head_yaw
          left_iris_rel_x right_iris_rel_x face_width).

(** The [np.concatenate] that ends [extract_eye_features]. *)
Definition concatenate (m : Measurements) : FeatureVector :=
  left_eye_center m ++ right_eye_center m ++
  left_iris_mean m ++ right_iris_mean m ++
  [left_ear m; right_ear m] ++
  [left_iris_to_corner m; right_iris_to_corner m] ++
  nose_xy m ++
  chin_xy m ++
  [head_pitch m; head_yaw m] ++
  [left_iris_rel_x m; right_iris_rel_x m] ++
  [face_width m].

Definition extract_eye_features (landmarks : list Landmark)
  : option FeatureVector :=
  m <- measure landmarks ;; Some (concatenate m).

End WithArctan2.

End FeatureExtractor.

(* ================================================================== *)
(** * The tracker object *)

(** [self.mode]: the four strings of [switch_mode]'s cycle. *)
Inductive Mode : Type := cursor | scroll | click | drag.

Definition mode_name (m : Mode) : String.string :=
  match m with
  | cursor => "cursor"%string
  | scroll => "scroll"%string
  | click => "click"%string
  | drag => "drag"%string
  end.

(** sklearn's estimators are kept symbolic: an estimator is what it was
    constructed with and fitted on. *)
Inductive StandardScaler : Type :=
| scaler_new
| scaler_fit (X : list FeatureVector).

(** [scaler.transform(X)], unevaluated. *)
Definition Scaled : Type := (StandardScaler * list FeatureVector)%type.

Record GradientBoostingRegressor : Type := mkRegressor {
  n_estimators : nat;
  max_depth : nat;
  fit_X : Scaled;
  fit_y : list Z
}.

(** One entry of [self.calibration_data]: [(avg_features, (x, y))]. *)
Definition CalibrationSample : Type := (FeatureVector * (Z * Z))%type.

(** The attributes of [EyeTrackerCursor] that calibration and the
    per-frame handlers read or write. Times, thresholds and cursor
    coordinates are exact rationals. [prev_xy] stands for the pair
    [prev_x], [prev_y], which are unset or set together. The last four
    attributes do not exist after [__init__]: [None] is an absent
    attribute, and [blink_relative_threshold] is created by the same
    assignments that create [blink_relative_mode]. *)
Record EyeTrackerCursor : Type := mkTracker {
  screen_width : Z;
  screen_height : Z;
  calibration_data : list CalibrationSample;
  calibration_points : list (Z * Z);
  model_x : option GradientBoostingRegressor;
  model_y : option GradientBoostingRegressor;
  scaler : StandardScaler;
  mode : Mode;
  blink_threshold : Q;
  last_blink_time : Q;
  blink_cooldown : Q;
  long_blink_threshold : Q;
  blink_start_time : option Q;
  smoothing_factor : Q;
  prev_xy : option (Q * Q);
  cursor_speed : Q;
  blink_relative_mode : option bool;
  blink_relative_threshold : Q;
  ear_history : option (list Q);
  dragging : option bool
}.

(** [__init__], for a screen of the given size, constructed at time
    [now]. *)
Definition init (width height : Z) (now : Q) : EyeTrackerCursor :=
  {| screen_width := width;
     screen_height := height;
     calibration_data := [];
     calibration_points := [];
     model_x := None;
     model_y := None;
     scaler := scaler_new;
     mode := cursor;
     blink_threshold := 0.2;
     last_blink_time := now;
     blink_cooldown := 0.05;
     long_blink_threshold := 1.0;
     blink_start_time := None;
     smoothing_factor := 0.8;
     prev_xy := None;
     cursor_speed := 0.05;
     blink_relative_mode := None;
     blink_relative_threshold := 0;
     ear_history := None;
     dragging := None |}.

(** Attribute assignments. *)
Definition set_calibration_data v (s : EyeTrackerCursor) :=
  let '(mkTracker a b _ d e f g h i j k l m n o p q r t u) := s in
  mkTracker a b v d e f g h i j k l m n o p q r t u.
Definition set_calibration_points v (s : EyeTrackerCursor) :=
  let '(mkTracker a b c _ e f g h i j k l m n o p q r t u) := s in
  mkTracker a b c v e f g h i j k l m n o p q r t u.
Definition set_models vx vy vs (s : EyeTrackerCursor) :=
  let '(mkTracker a b c d _ _ _ h i j k l m n o p q r t u) := s in
  mkTracker a b c d vx vy vs h i j k l m n o p q r t u.
Definition set_mode v (s : EyeTrackerCursor) :=
  let '(mkTracker a b c d e f g _ i j k l m n o p q r t u) := s in
  mkTracker a b c d e f g v i j k l m n o p q r t u.
Definition set_last_blink_time v (s : EyeTrackerCursor) :=
  let '(mkTracker a b c d e f g h i _ k l m n o p q r t u) := s in
  mkTracker a b c d e f g h i v k l m n o p q r t u.
Definition set_blink_start_time v (s : EyeTrackerCursor) :=
  let '(mkTracker a b c d e f g h i j k l _ n o p q r t u) := s in
  mkTracker a b c d e f g h i j k l v n o p q r t u.
Definition set_prev_xy v (s : EyeTrackerCursor) :=
  let '(mkTracker a b c d e f g h i j k l m n _ p q r t u) := s in
  mkTracker a b c d e f g h i j k l m n v p q r t u.
Definition set_cursor_speed v (s : EyeTrackerCursor) :=
  let '(mkTracker a b c d e f g h i j k l m n o _ q r t u) := s in
  mkTracker a b c d e f g h i j k l m n o v q r t u.
Definition set_blink_relative vm vt (s : EyeTrackerCursor) :=
  let '(mkTracker a b c d e f g h i j k l m n o p _ _ t u) := s in
  mkTracker a b c d e f g h i j k l m n o p vm vt t u.
Definition set_ear_history v (s : EyeTrackerCursor) :=
  let '(mkTracker a b c d e f g h i j k l m n o p q r _ u) := s in
  mkTracker a b c d e f g h i j k l m n o p q r v u.
Definition set_dragging v (s : EyeTrackerCursor) :=
  let '(mkTracker a b c d e f g h i j k l m n o p q r t _) := s in
  mkTracker a b c d e f g h i j k l m n o p q r t v.

(* ================================================================== *)
(** * Calibration *)

(** What one pass of a sampling loop gets from the camera and the face
    mesh: [ret] false, no face, or the landmarks of the first face. *)
Inductive Capture : Type :=
| read_failed
| no_landmarks
| detected (landmarks : list Landmark).

Module Calibration.

(** The grid of [calibrate]. The last entry of [y_points] is written
    with [screen_width] in the source. *)
Definition x_points (s : EyeTrackerCursor) : list float :=
  let w := Py.float (screen_width s) in
  [w * 0.1; w * 0.2; w * 0.3; w * 0.4; w * 0.5;
   w * 0.6; w * 0.7; w * 0.8; w * 0.9; w * 0.95]%float.

Definition y_points (s : EyeTrackerCursor) : list float :=
  let w := Py.float (screen_width s) in
  let h := Py.float (screen_height s) in
  [h * 0.1; h * 0.2; h * 0.3; h * 0.4; h * 0.5;
   h * 0.6; h * 0.7; h * 0.8; h * 0.9; w * 0.95]%float.

(** The body of the two nested [for] loops, over the pairs in the
    order the loops visit them. *)
Fixpoint append_points (pairs : list (float * float)) (num_points : Z)
    (points : list (Z * Z)) : option (list (Z * Z)) :=
  match pairs with
  | [] => Some points
  | (x, y) :: rest =>
      if (Z.of_nat (List.length points) <? num_points)%Z
      then xi <- Py.int x ;; yi <- Py.int y ;;
           append_points rest num_points (points ++ [(xi, yi)])
      else append_points rest num_points points
  end.

Definition grid (s : EyeTrackerCursor) : list (float * float) :=
  flat_map (fun x => map (fun y => (x, y)) (y_points s)) (x_points s).

Definition make_calibration_points (s : EyeTrackerCursor) (num_points : Z)
  : option (list (Z * Z)) :=
  append_points (grid s) num_points [].

(** Lines 299-330: the fit that ends [calibrate]. *)
Definition train (s : EyeTrackerCursor) : EyeTrackerCursor * bool :=
  if (6 <=? List.length (calibration_data s))%nat then
    let X := map fst (calibration_data s) in
    let y_x := map (fun data => fst (snd data)) (calibration_data s) in
    let y_y := map (fun data => snd (snd data)) (calibration_data s) in
    let fitted := scaler_fit X in
    let X_scaled : Scaled := (fitted, X) in
    (set_models (Some (mkRegressor 400 18 X_scaled y_x))
                (Some (mkRegressor 400 18 X_scaled y_y))
                fitted s, true)
  else (s, false).

Section WithArctan2.

Variable arctan2 : float -> float -> float.

(** The [while time.time() - start_time < 3] loop, over the
    captures that fall in the three seconds. *)
Fixpoint sample (captures : list Capture) (point_data : list FeatureVector)
  : option (list FeatureVector) :=
  match captures with
  | [] => Some point_data
  | read_failed :: rest => sample rest point_data
  | no_landmarks :: rest => sample rest point_data
  | detected landmarks :: rest =>
      features <- FeatureExtractor.extract_eye_features arctan2 landmarks ;;
      sample rest (point_data ++ [features])
  end.

(** Lines 264-294: what one target adds to [calibration_data]. *)
Definition filter_point (point_data : list FeatureVector) (xy : Z * Z)
  : option (list CalibrationSample) :=
  if (10 <? List.length point_data)%nat then
    let median_features := Np.median_axis0 point_data in
    let distances :=
      map (fun row =>
             Np.sum (map (fun d => PrimFloat.mul d d)
                         (Np.sub row median_features)))
          point_data in
    keep <- Py.int (Py.float (Z.of_nat (List.length distances)) * 0.8)%float ;;
    let keep_indices := firstn (Z.to_nat keep) (Np.argsort distances) in
    filtered_data <- Py.mapM (nth_error point_data) keep_indices ;;
    let avg_features := Np.mean_axis0 filtered_data in
    Some [(avg_features, xy)]
  else Some [].

(** The [for point_idx, (x, y) in enumerate(...)] loop;
    [captures point_idx] is what the camera delivers while target
    [point_idx] is sampled. *)
Fixpoint collect (points : list (Z * Z)) (point_idx : nat)
    (captures : nat -> list Capture) (s : EyeTrackerCursor)
  : option EyeTrackerCursor :=
  match points with
  | [] => Some s
  | xy :: rest =>
      point_data <- sample (captures point_idx) [] ;;
      added <- filter_point point_data xy ;;
      collect rest (S point_idx) captures
              (set_calibration_data (calibration_data s ++ added) s)
  end.

(** [calibrate(num_points)]; [camera] is the result of
    [start_camera()]. *)
Definition calibrate (s : EyeTrackerCursor) (camera : bool)
    (num_points : Z) (captures : nat -> list Capture)
  : option (EyeTrackerCursor * bool) :=
  if negb camera then Some (s, false)
  else
    points <- make_calibration_points s num_points ;;
    let s1 := set_calibration_points points s in
    s2 <- collect points 0 captures s1 ;;
    Some (train s2).

End WithArctan2.

End Calibration.

(* ================================================================== *)
(** * Per-frame control: modes, blinks, scrolling, smoothing *)

(** The [pyautogui] calls the handlers make. *)
Inductive Actuation : Type :=
| pyautogui_click
| pyautogui_rightClick
| pyautogui_mouseDown
| pyautogui_mouseUp
| pyautogui_scroll (amount : Z).

Module Control.

Local Open Scope Q_scope.

(** [a < b] on exact numbers. *)
Definition Qltb (a b : Q) : bool := negb (Qle_bool b a).

Fixpoint insert (a : Q) (l : list Q) : list Q :=
  match l with
  | [] => [a]
  | b :: l' => if Qle_bool a b then a :: l else b :: insert a l'
  end.

Definition sort (l : list Q) : list Q := fold_right insert [] l.

(** [np.percentile(a, q)], linear interpolation between the two
    closest ranks of the sorted data. *)
Definition percentile (a : list Q) (q : Q) : Q :=
  let s := sort a in
  let n := List.length a in
  let virtual := (q / 100) * (inject_Z (Z.of_nat n) - 1) in
  let previous := Qfloor virtual in
  let next := Z.min (previous + 1) (Z.of_nat n - 1) in
  let gamma := virtual - inject_Z previous in
  let lo := nth (Z.to_nat previous) s 0 in
  let hi := nth (Z.to_nat next) s 0 in
  lo + (hi - lo) * gamma.

Definition modes : list Mode := [cursor; scroll; click; drag].

(** [modes.index(m)]. *)
Definition modes_index (m : Mode) : nat :=
  match m with
  | cursor => 0
  | scroll => 1
  | click => 2
  | drag => 3
  end.

Definition switch_mode (s : EyeTrackerCursor) : EyeTrackerCursor * Mode :=
  let current_idx := modes_index (mode s) in
  let next_idx := ((current_idx + 1) mod List.length modes)%nat in
  let new_mode := nth next_idx modes cursor in
  let speed :=
    match new_mode with
    | cursor => 0.05
    | scroll => 0.02
    | click => 0.04
    | drag => 0.03
    end in
  (set_cursor_speed speed (set_mode new_mode s), new_mode).

(** Lines 607-623 of [handle_blink]: the history update of relative
    mode and the value of [is_blink]. *)
Definition detect_blink (s : EyeTrackerCursor) (avg_ear : Q)
  : EyeTrackerCursor * bool :=
  match blink_relative_mode s with
  | Some true =>
      let created := match ear_history s with
                     | Some h => h
                     | None => []
                     end in
      let appended := created ++ [avg_ear] in
      let history := if (30 <? List.length appended)%nat
                     then tl appended else appended in
      let s' := set_ear_history (Some history) s in
      if (10 <=? List.length history)%nat then
        let baseline := percentile history 80 in
        (s', Qltb avg_ear (baseline * (1 - blink_relative_threshold s)))
      else (s', false)
  | _ => (s, Qltb avg_ear (blink_threshold s))
  end.

(** [handle_blink(left_ear, right_ear)], called at [current_time];
    the result is the new object, the actuations and the returned
    string ([None] for Python's [None]). *)
Definition handle_blink (s : EyeTrackerCursor)
    (current_time left_ear right_ear : Q)
  : EyeTrackerCursor * list Actuation * option string :=
  let avg_ear := (left_ear + right_ear) / 2 in
  let '(s1, is_blink) := detect_blink s avg_ear in
  match is_blink, blink_start_time s1 with
  | true, None =>
      (set_blink_start_time (Some current_time) s1, [], None)
  | false, Some start =>
      let blink_duration := current_time - start in
      let s2 := set_blink_start_time None s1 in
      if Qltb (blink_cooldown s2) (current_time - last_blink_time s2) then
        let s3 := set_last_blink_time current_time s2 in
        if Qltb blink_duration 0.3 then
          match mode s3 with
          | cursor | click => (s3, [pyautogui_click], Some "click"%string)
          | drag =>
              let engaged := match dragging s3 with
                             | Some d => d
                             | None => false
                             end in
              (set_dragging (Some (negb engaged)) s3,
               [if negb engaged then pyautogui_mouseDown
                else pyautogui_mouseUp],
               Some "drag_toggle"%string)
          | scroll => (s3, [], None)
          end
        else if Qle_bool 0.3 blink_duration
                && Qltb blink_duration (long_blink_threshold s3) then
          match mode s3 with
          | cursor | click =>
              (s3, [pyautogui_rightClick], Some "right_click"%string)
          | _ => (s3, [], None)
          end
        else
          let '(s4, new_mode) := switch_mode s3 in
          (s4, [], Some ("mode_switch_" ++ mode_name new_mode)%string)
      else (s2, [], None)
  | _, _ => (s1, [], None)
  end.

(** [handle_scroll(y_position)]: the actuations and the returned
    amount. A zero [screen_height] is outside the model. *)
Definition handle_scroll (s : EyeTrackerCursor) (y_position : Q)
  : list Actuation * Z :=
  match mode s with
  | scroll =>
      let center_region := 0.3 in
      let scroll_speed_factor := 0.5 in
      let normalized_y := y_position / inject_Z (screen_height s) in
      if Qltb normalized_y (0.5 - center_region / 2) then
        let distance_from_center := (0.5 - center_region / 2) - normalized_y in
        let scroll_amount :=
          Py.trunc (20 * distance_from_center * scroll_speed_factor) in
        ([pyautogui_scroll scroll_amount], scroll_amount)
      else if Qltb (0.5 + center_region / 2) normalized_y then
        let distance_from_center := normalized_y - (0.5 + center_region / 2) in
        let scroll_amount :=
          Py.trunc (-20 * distance_from_center * scroll_speed_factor) in
        ([pyautogui_scroll scroll_amount], scroll_amount)
      else ([], 0%Z)
  | _ => ([], 0%Z)
  end.

(** The quantities of one smoothing step, as [smooth_movement]
    names them. *)
Definition edge_distance_x (s : EyeTrackerCursor) (x_pred : Q) : Q :=
  Qmin x_pred (inject_Z (screen_width s) - x_pred)
  / (inject_Z (screen_width s) / 2).

Definition edge_distance_y (s : EyeTrackerCursor) (y_pred : Q) : Q :=
  Qmin y_pred (inject_Z (screen_height s) - y_pred)
  / (inject_Z (screen_height s) / 2).

Definition edge_distance (s : EyeTrackerCursor) (x_pred y_pred : Q) : Q :=
  Qmin (edge_distance_x s x_pred) (edge_distance_y s y_pred).

Definition adjusted_smoothing (s : EyeTrackerCursor) (x_pred y_pred : Q) : Q :=
  smoothing_factor s * edge_distance s x_pred y_pred.

(** [smooth_movement(x_pred, y_pred)]. Zero screen dimensions are
    outside the model. *)
Definition smooth_movement (s : EyeTrackerCursor) (x_pred y_pred : Q)
  : EyeTrackerCursor * (Q * Q) :=
  match prev_xy s with
  | None => (set_prev_xy (Some (x_pred, y_pred)) s, (x_pred, y_pred))
  | Some (prev_x, prev_y) =>
      let a := adjusted_smoothing s x_pred y_pred in
      let smooth_x := prev_x * a + x_pred * (1 - a) in
      let smooth_y := prev_y * a + y_pred * (1 - a) in
      (set_prev_xy (Some (smooth_x, smooth_y)) s, (smooth_x, smooth_y))
  end.

(** Lines 744-745 of [run]: the two entries of the feature vector
    that the loop hands to [handle_blink] as [left_ear] and
    [right_ear]. *)
Definition run_ears (features : FeatureVector) : option (float * float) :=
  left_ear <- Py.index features (-6) ;;
  right_ear <- Py.index features (-5) ;;
  Some (left_ear, right_ear).

End Control.

(* ================================================================== *)
(** * Test data *)

(** A synthetic frame of the refined face mesh (478 landmarks): for
    each eye the three landmark pairs that [calculate_eye_aspect_ratio]
    measures are 1/16 apart and the two corners 1/4 apart, the irises
    sit at the eye centres, nose tip and chin on the vertical axis of
    the face. Every coordinate is a binary fraction, so the arithmetic
    on it is exact. *)
Definition synthetic_landmark (i : nat) : Landmark :=
  let lower := [382; 381; 380; 7; 163; 144]%nat in
  let upper := [373; 374; 249; 153; 145; 155]%nat in
  if existsb (Nat.eqb i) FeatureExtractor.LEFT_IRIS then mkLandmark 0.6875 0.375 0
  else if existsb (Nat.eqb i) FeatureExtractor.RIGHT_IRIS then mkLandmark 0.3125 0.375 0
  else if (i =? 362)%nat then mkLandmark 0.5625 0.375 0
  else if (i =? 263)%nat then mkLandmark 0.8125 0.375 0
  else if (i =? 33)%nat then mkLandmark 0.1875 0.375 0
  else if (i =? 133)%nat then mkLandmark 0.4375 0.375 0
  else if existsb (Nat.eqb i) lower then mkLandmark 0.5 0.40625 0
  else if existsb (Nat.eqb i) upper then mkLandmark 0.5 0.34375 0
  else if (i =? 1)%nat then mkLandmark 0.5 0.5 (-0.0625)
  else if (i =? 199)%nat then mkLandmark 0.5 0.875 0
  else mkLandmark 0.5 0.5 0.

Definition synthetic_frame : list Landmark := map synthetic_landmark (seq 0 478).

(** A frame whose landmarks all coincide: both eye widths and the face
    width are zero. *)
Definition collapsed_frame : list Landmark := repeat (mkLandmark 0.5 0.5 0) 478.

(** [np.arctan2] at the three argument pairs the two frames above give
    rise to (pitch and yaw of the synthetic frame, and both angles of
    the collapsed one), rounded to binary64. It is used where a closed
    term is needed. *)
Definition arctan2_of_frames (y x : float) : float :=
  if PrimFloat.eqb y 0.375 && PrimFloat.eqb x 0.0625
  then 1.4056476493802699%float
  else if PrimFloat.eqb y (-0.125) && PrimFloat.eqb x 0
  then (-1.5707963267948966)%float
  else if PrimFloat.eqb y 0 && PrimFloat.eqb x 0
  then 0%float
  else PrimFloat.nan.

(** The condition "a denominator of the feature computation is zero":
    one of the two eye widths [h], or [face_width]. *)
Definition zero_denominator (landmarks : list Landmark) : bool :=
  let is_zero (d : option float) :=
    match d with
    | Some w => PrimFloat.eqb w 0
    | None => false
    end in
  let width eye :=
    eye_landmarks <- FeatureExtractor.contour landmarks eye ;;
    FeatureExtractor.h (firstn 9 eye_landmarks) in
  is_zero (width FeatureExtractor.LEFT_EYE)
  || is_zero (width FeatureExtractor.RIGHT_EYE)
  || is_zero (FeatureExtractor.face_width_of landmarks).

(* ================================================================== *)
(** * Vocabulary of the statements *)

(** Landmark [i] of a frame that has it. *)
Definition at_ (landmarks : list Landmark) (i : nat) : Landmark :=
  nth i landmarks (mkLandmark 0 0 0).

(** [int(len(distances) * 0.8)] is defined: checked in binary64 for
    every length below 5000, far beyond what three seconds of video
    hold. *)
Definition keep_defined (n : nat) : bool :=
  match Py.int (Py.float (Z.of_nat n) * 0.8)%float with
  | Some _ => true
  | None => false
  end.

(** [normalized_y] of [handle_scroll]. *)
Definition normalized (s : EyeTrackerCursor) (y_position : Q) : Q :=
  (y_position / inject_Z (screen_height s))%Q.

(** The calls of [handle_blink] made by the loop of [run], one per
    frame [(current_time, left_ear, right_ear)]: the strings returned,
    each with the time of its call. *)
Fixpoint blink_events (s : EyeTrackerCursor) (frames : list (Q * Q * Q))
  : list (Q * string) :=
  match frames with
  | [] => []
  | (current_time, left_ear, right_ear) :: rest =>
      let '(s', _, event) :=
        Control.handle_blink s current_time left_ear right_ear in
      match event with
      | Some e => (current_time, e) :: blink_events s' rest
      | None => blink_events s' rest
      end
  end.

(** Every event comes more than [gap] after each event before it. *)
Inductive spaced (gap : Q) : list (Q * string) -> Prop :=
| spaced_nil : spaced gap []
| spaced_cons t e later :
    Forall (fun ev => gap < fst ev - t)%Q later ->
    spaced gap later ->
    spaced gap ((t, e) :: later).

(** The history of relative mode holds at most thirty values. *)
Definition history_bounded (s : EyeTrackerCursor) : Prop :=
  match ear_history s with
  | Some history => (length history <= 30)%nat
  | None => True
  end.

(** The mode after [m] in the cycle of [switch_mode]. *)
Definition next_mode (m : Mode) : Mode :=
  match m with
  | cursor => scroll
  | scroll => click
  | click => drag
  | drag => cursor
  end.

(** The tracker after the calls of [handle_blink] for the given
    frames. *)
Fixpoint after_frames (s : EyeTrackerCursor) (frames : list (Q * Q * Q))
  : EyeTrackerCursor :=
  match frames with
  | [] => s
  | (current_time, left_ear, right_ear) :: rest =>
      after_frames
        (fst (fst (Control.handle_blink s current_time left_ear right_ear)))
        rest
  end.

(* ================================================================== *)
(** * Persistence *)

(** The dict that [save_blink_calibration] dumps and that [load_models]
    reads with [.get]: each of its four keys is present or absent. *)
Record BlinkCalibration : Type := mkBlinkCalibration {
  key_blink_threshold : option Q;
  key_blink_relative_mode : option bool;
  key_blink_baseline : option Q;
  key_blink_relative_threshold : option Q
}.

(** What a [.pkl] file of the tracker holds. *)
Inductive Pickle : Type :=
| pickled_regressor (model : GradientBoostingRegressor)
| pickled_scaler (sc : StandardScaler)
| pickled_dict (d : BlinkCalibration).

(** The files under their names, the latest write first. *)
Definition Disk : Type := list (string * Pickle).

Module Joblib.

(** [joblib.load(filename)]; [None] is [FileNotFoundError]. *)
Fixpoint load (disk : Disk) (filename : string) : option Pickle :=
  match disk with
  | [] => None
  | (name, p) :: rest =>
      if String.eqb name filename then Some p else load rest filename
  end.

(** [joblib.dump(value, filename)]. *)
Definition dump (value : Pickle) (filename : string) (disk : Disk) : Disk :=
  (filename, value) :: disk.

End Joblib.

(** The tracker with the two attributes that only persistence and the
    blink calibration touch: [blink_baseline], absent after [__init__],
    and [data_dir]. *)
Record Profile : Type := mkProfile {
  tracker : EyeTrackerCursor;
  blink_baseline : option Q;
  data_dir : string
}.

Definition set_tracker (t : EyeTrackerCursor) (p : Profile) : Profile :=
  mkProfile t (blink_baseline p) (data_dir p).

Definition set_blink_threshold v (s : EyeTrackerCursor) :=
  let '(mkTracker a b c d e f g h _ j k l m n o p q r t u) := s in
  mkTracker a b c d e f g h v j k l m n o p q r t u.

Module Persistence.

(** [os.path.join(directory, name)] for a directory written without a
    trailing separator and a relative name. *)
Definition os_path_join (directory name : string) : string :=
  (directory ++ "/" ++ name)%string.

Definition prefix_of (p : Profile) (filename_prefix : option string) : string :=
  match filename_prefix with
  | Some given => given
  | None => os_path_join (data_dir p) "eye_tracker_model"
  end.

Definition calibration_file (p : Profile) : string :=
  os_path_join (data_dir p) "blink_calibration.pkl".

(** [save_models(filename_prefix)]. A fitted regressor is truthy. *)
Definition save_models (p : Profile) (filename_prefix : option string)
    (disk : Disk) : Disk * bool :=
  let prefix := prefix_of p filename_prefix in
  match model_x (tracker p), model_y (tracker p) with
  | Some mx, Some my =>
      let disk1 := Joblib.dump (pickled_regressor mx) (prefix ++ "_x.pkl") disk in
      let disk2 := Joblib.dump (pickled_regressor my) (prefix ++ "_y.pkl") disk1 in
      let disk3 := Joblib.dump (pickled_scaler (scaler (tracker p)))
                     (prefix ++ "_scaler.pkl") disk2 in
      (disk3, true)
  | _, _ => (disk, false)
  end.

(** [save_blink_calibration()]: the four [getattr] with their
    defaults. [blink_relative_threshold] exists when
    [blink_relative_mode] does. *)
Definition save_blink_calibration (p : Profile) (disk : Disk) : Disk * bool :=
  let calibration_data :=
    {| key_blink_threshold := Some (blink_threshold (tracker p));
       key_blink_relative_mode :=
         Some (match blink_relative_mode (tracker p) with
               | Some m => m
               | None => false
               end);
       key_blink_baseline :=
         Some (match blink_baseline p with
               | Some b => b
               | None => 0.3
               end);
       key_blink_relative_threshold :=
         Some (match blink_relative_mode (tracker p) with
               | Some _ => blink_relative_threshold (tracker p)
               | None => 0.2
               end) |} in
  (Joblib.dump (pickled_dict calibration_data) (calibration_file p) disk, true).

(** [calibration_data.get(key, default)]. *)
Definition get {A} (entry : option A) (default : A) : A :=
  match entry with
  | Some v => v
  | None => default
  end.

(** [load_models(filename_prefix)]: the four loads in the order of the
    source, each assigned as soon as it is read; a missing file ends
    the call with [False]. A file that holds an object of another kind
    than the attribute it is loaded into is outside the model
    ([None]). *)
Definition load_models (p : Profile) (filename_prefix : option string)
    (disk : Disk) : option (Profile * bool) :=
  let prefix := prefix_of p filename_prefix in
  let t := tracker p in
  match Joblib.load disk (prefix ++ "_x.pkl") with
  | None => Some (p, false)
  | Some (pickled_regressor mx) =>
      let t1 := set_models (Some mx) (model_y t) (scaler t) t in
      match Joblib.load disk (prefix ++ "_y.pkl") with
      | None => Some (set_tracker t1 p, false)
      | Some (pickled_regressor my) =>
          let t2 := set_models (Some mx) (Some my) (scaler t) t in
          match Joblib.load disk (prefix ++ "_scaler.pkl") with
          | None => Some (set_tracker t2 p, false)
          | Some (pickled_scaler sc) =>
              let t3 := set_models (Some mx) (Some my) sc t in
              match Joblib.load disk (calibration_file p) with
              | None => Some (set_tracker t3 p, false)
              | Some (pickled_dict calibration_data) =>
                  let t4 :=
                    set_blink_relative
                      (Some (get (key_blink_relative_mode calibration_data) false))
                      (get (key_blink_relative_threshold calibration_data) 0.2)
                      (set_blink_threshold
                         (get (key_blink_threshold calibration_data) 0.2) t3) in
                  Some (mkProfile t4
                          (Some (get (key_blink_baseline calibration_data) 0.3))
                          (data_dir p),
                        true)
              | Some _ => None
              end
          | Some _ => None
          end
      | Some _ => None
      end
  | Some _ => None
  end.

End Persistence.

(* ================================================================== *)
(** * Blink threshold calibration *)

(** One pass of the blink-recording loop that finds a face: the average
    of the two values read from the feature vector, and the key that
    [cv2.waitKey(1) & 0xFF] returns. A pass without a frame or without
    a face polls no key and is [None]. *)
Definition BlinkPass : Type := option (Q * Z).




Module BlinkCalibrator.

Local Open Scope Q_scope.

(** [np.mean] of a list of numbers. *)
Definition mean (l : list Q) : Q :=
  fold_left Qplus l 0 / inject_Z (Z.of_nat (length l)).

(** [min] of a non-empty list. *)
Definition minimum (a : Q) (l : list Q) : Q := fold_left Qmin l a.

(** [l[lo:hi]] for indices that are not negative. *)
Definition slice {A} (l : list A) (lo hi : Z) : list A :=
  skipn (Z.to_nat lo) (firstn (Z.to_nat hi) l).

(** The local variables of the blink-recording loop. *)
Record Recording : Type := mkRecording {
  blink_count : nat;
  blink_ear_values : list Q;
  current_blink_ears : list Q
}.

Definition recording_start : Recording := mkRecording 0 [] [].

(** The body of [while blink_count < 5] for one pass with a face. *)
Definition record_pass (r : Recording) (avg_ear : Q) (key : Z) : Recording :=
  if (key =? 32)%Z then
    mkRecording (blink_count r) (blink_ear_values r)
                (current_blink_ears r ++ [avg_ear])
  else
    match current_blink_ears r with
    | first :: others =>
        let min_blink_ear := minimum first others in
        mkRecording (blink_count r + 1)
                    (blink_ear_values r ++ [min_blink_ear]) []
    | [] => r
    end.

(** The loop over the passes it is given: it ends when five blinks are
    recorded, returns at once on ESC (second component [true]), and is
    still waiting when the passes run out. *)
Fixpoint record_blinks (passes : list BlinkPass) (r : Recording)
  : Recording * bool :=
  if (5 <=? blink_count r)%nat then (r, false)
  else
    match passes with
    | [] => (r, false)
    | None :: rest => record_blinks rest r
    | Some (avg_ear, key) :: rest =>
        let r' := record_pass r avg_ear key in
        if (key =? 27)%Z then (r', true) else record_blinks rest r'
    end.

(** Lines 538-597: the threshold from the recorded values. A zero
    [avg_baseline] in the relative branch is outside the model. *)
Definition personalize (p : Profile) (baseline_ears blink_ear_values : list Q)
    (disk : Disk) : Profile * Disk * bool :=
  if (10 <? length baseline_ears)%nat && (3 <=? length blink_ear_values)%nat
  then
    let sorted := Control.sort baseline_ears in
    let n := inject_Z (Z.of_nat (length sorted)) in
    let filtered_baseline :=
      slice sorted (Py.trunc (n * 0.1)) (Py.trunc (n * 0.9)) in
    let avg_baseline := mean filtered_baseline in
    let avg_blink_min := mean blink_ear_values in
    let t1 := set_blink_threshold ((avg_baseline + avg_blink_min) / 2)
                (tracker p) in
    let p' :=
      if Control.Qltb (Qabs (avg_baseline - avg_blink_min)) 0.05 then
        let reduction_ratio := avg_blink_min / avg_baseline in
        mkProfile (set_blink_relative (Some true)
                     ((1 - reduction_ratio) * 0.8) t1)
                  (Some avg_baseline) (data_dir p)
      else set_tracker t1 p in
    (p', fst (Persistence.save_blink_calibration p' disk), true)
  else (p, disk, false).


End BlinkCalibrator.

(* ================================================================== *)
(** * The loop of [run] *)

(** What one iteration with a face does, seen from outside. *)
Record FrameResult : Type := mkFrameResult {
  moved_to : Q * Q;
  move_duration : Q;
  blink_action : option string;
  scroll_amount : Z;
  actuations : list Actuation
}.

Module Run.

Local Open Scope Q_scope.

(** The body of [if results.multi_face_landmarks] from the prediction
    on: [x_pred] and [y_pred] are what the regressors predict for the
    frame, [left_ear] and [right_ear] the two values read from the
    feature vector. *)
Definition frame (s : EyeTrackerCursor)
    (current_time x_pred y_pred left_ear right_ear : Q)
  : EyeTrackerCursor * FrameResult :=
  let '(s1, (x_smooth, y_smooth)) := Control.smooth_movement s x_pred y_pred in
  let x_smooth := Qmax 0 (Qmin x_smooth (inject_Z (screen_width s1 - 1))) in
  let y_smooth := Qmax 0 (Qmin y_smooth (inject_Z (screen_height s1 - 1))) in
  let duration := cursor_speed s1 in
  let '(s2, blink_actuations, blink_action) :=
    Control.handle_blink s1 current_time left_ear right_ear in
  let '(scroll_actuations, scroll_amount) := Control.handle_scroll s2 y_smooth in
  (s2, mkFrameResult (x_smooth, y_smooth) duration blink_action scroll_amount
         (blink_actuations ++ scroll_actuations)).

(** The keys [m] and [s]. *)
Definition key_m (s : EyeTrackerCursor) : EyeTrackerCursor :=
  fst (Control.switch_mode s).

Definition key_s (s : EyeTrackerCursor) : EyeTrackerCursor :=
  set_mode scroll s.

(** After the loop: [if hasattr(self, 'dragging') and self.dragging]. *)
Definition release (s : EyeTrackerCursor) : list Actuation :=
  match dragging s with
  | Some true => [pyautogui_mouseUp]
  | _ => []
  end.

Section WithArctan2.

Variable arctan2 : float -> float -> float.

(** The key [f]: the calibration set is emptied, [calibrate(16)] runs,
    and the models are saved when it returns [True]. *)
Definition key_f (p : Profile) (camera : bool)
    (captures : nat -> list Capture) (disk : Disk)
  : option (Profile * Disk) :=
  let emptied :=
    set_calibration_points [] (set_calibration_data [] (tracker p)) in
  r <- Calibration.calibrate arctan2 emptied camera 16 captures ;;
  let p' := set_tracker (fst r) p in
  if snd r then Some (p', fst (Persistence.save_models p' None disk))
  else Some (p', disk).

End WithArctan2.

End Run.

(** The state of the left mouse button after a trace of actuations:
    [mouseDown] presses it, [mouseUp] releases it, and [click] presses
    and releases it, so it is up after a click whatever it was before.
    [rightClick] and [scroll] do not touch it. *)
Definition button_down (before : bool) (trace : list Actuation) : bool :=
  fold_left (fun down a =>
               match a with
               | pyautogui_mouseDown => true
               | pyautogui_mouseUp => false
               | pyautogui_click => false
               | pyautogui_rightClick => down
               | pyautogui_scroll _ => down
               end) trace before.

(** The actuations of the calls of [handle_blink] for the given
    frames. *)
Fixpoint blink_actuations (s : EyeTrackerCursor) (frames : list (Q * Q * Q))
  : list Actuation :=
  match frames with
  | [] => []
  | (current_time, left_ear, right_ear) :: rest =>
      let '(s', acts, _) :=
        Control.handle_blink s current_time left_ear right_ear in
      acts ++ blink_actuations s' rest
  end.

(** [self.dragging], read with its default. *)
Definition engaged (s : EyeTrackerCursor) : bool :=
  match dragging s with
  | Some d => d
  | None => false
  end.

(** The speed constant that [switch_mode] associates with a mode. *)
Definition speed_of (m : Mode) : Q :=
  match m with
  | cursor => 0.05
  | scroll => 0.02
  | click => 0.04
  | drag => 0.03
  end.

(** A grid pair and the target it becomes under [int]. *)
Definition int_pair (pair : float * float) (target : Z * Z) : Prop :=
  Py.int (fst pair) = Some (fst target) /\
  Py.int (snd pair) = Some (snd target).

(** The values seen while SPACE is held in the blink-recording loop. *)
Definition held_ears (passes : list BlinkPass) : list Q :=
  flat_map (fun pass =>
              match pass with
              | Some (avg_ear, key) => if (key =? 32)%Z then [avg_ear] else []
              | None => []
              end) passes.

(* ================================================================== *)
(** * Scrolling in binary64 *)

Module Binary64.

(** [handle_scroll(y_position)] with the arithmetic of the
    interpreter: every operation is the binary64 one, [20] and
    [self.screen_height] are converted as Python converts an [int]
    operand, and [int] truncates the product. *)
Definition handle_scroll (s : EyeTrackerCursor) (y_position : float)
  : option (list Actuation * Z) :=
  match mode s with
  | scroll =>
      let center_region := 0.3%float in
      let scroll_speed_factor := 0.5%float in
      let normalized_y := (y_position / Py.float (screen_height s))%float in
      if (normalized_y <? 0.5 - center_region / 2)%float then
        let distance_from_center :=
          ((0.5 - center_region / 2) - normalized_y)%float in
        scroll_amount <-
          Py.int (Py.float 20 * distance_from_center
                  * scroll_speed_factor)%float ;;
        Some ([pyautogui_scroll scroll_amount], scroll_amount)
      else if (0.5 + center_region / 2 <? normalized_y)%float then
        let distance_from_center :=
          (normalized_y - (0.5 + center_region / 2))%float in
        scroll_amount <-
          Py.int (Py.float (-20) * distance_from_center
                  * scroll_speed_factor)%float ;;
        Some ([pyautogui_scroll scroll_amount], scroll_amount)
      else Some ([], 0%Z)
  | _ => Some ([], 0%Z)
  end.

End Binary64.

(** The amount [handle_scroll] returns at a whole-pixel row. *)
Definition scroll_amount_at (s : EyeTrackerCursor) (y : Z) : option Z :=
  option_map snd (Binary64.handle_scroll s (Py.float y)).

(** A tracker in scroll mode on a display of the given height. *)
Definition scroll_tracker (height : Z) : EyeTrackerCursor :=
  set_mode scroll (init 1920 height 0).

(** Display heights in use, in rows: the statements about binary64
    scrolling are evaluated on every row of each of them. *)
Definition display_heights : list Z :=
  [600; 720; 768; 800; 900; 956; 982; 1024; 1050; 1080; 1117; 1120; 1200;
   1329; 1440; 1600; 1692; 1800; 2160]%Z.

(** The rows [0 .. height], the bottom edge included. *)
Definition rows (height : Z) : list Z :=
  map Z.of_nat (seq 0 (Z.to_nat height + 1)).

Definition no_call (acts : list Actuation) : bool :=
  match acts with
  | [] => true
  | _ => false
  end.

Definition one_scroll_call (acts : list Actuation) (amount : Z) : bool :=
  match acts with
  | [pyautogui_scroll a] => (a =? amount)%Z
  | _ => false
  end.

(** What is evaluated at one row: the zone and the amount against the
    exact distance to the deadzone edge, the row above, and the
    mirrored row. *)
Definition scroll_row_checked (height y : Z) : bool :=
  let s := scroll_tracker height in
  let n := (inject_Z y / inject_Z height)%Q in
  match Binary64.handle_scroll s (Py.float y),
        scroll_amount_at s (y - 1), scroll_amount_at s (height - y) with
  | Some (acts, amount), Some above, Some mirrored =>
      (if Control.Qltb n 0.35 then
         let steps := (10 * (0.35 - n))%Q in
         one_scroll_call acts amount && (0 <=? amount)%Z
         && ((amount =? Qfloor steps)%Z
             || (Qeq_bool steps (inject_Z (Qfloor steps))
                 && (amount =? Qfloor steps - 1)%Z))
         && implb (Control.Qltb 0.1 (0.35 - n)) (0 <? amount)%Z
       else if Control.Qltb 0.65 n then
         let steps := (10 * (n - 0.65))%Q in
         one_scroll_call acts amount && (amount <=? 0)%Z
         && ((amount =? - Qfloor steps)%Z
             || (Qeq_bool steps (inject_Z (Qfloor steps))
                 && (amount =? - Qfloor steps + 1)%Z))
         && implb (Control.Qltb 0.1 (n - 0.65)) (amount <? 0)%Z
       else no_call acts && (amount =? 0)%Z)
      && (amount <=? above)%Z
      && (-1 <=? amount + mirrored)%Z && (amount + mirrored <=? 1)%Z
  | _, _, _ => false
  end.

(* ================================================================== *)
(** * Facts about the Python primitives *)

Section PyFacts.

Context {A B : Type}.

Lemma mapM_total (f : A -> option B) (g : A -> B) (l : list A) :
  Forall (fun a => f a = Some (g a)) l -> Py.mapM f l = Some (map g l).
Proof.
  induction 1 as [|a l Ha _ IH]; simpl; [reflexivity|].
  now rewrite Ha, IH.
Qed.

Lemma mapM_nth_error_total (l : list A) (idxs : list nat) :
  Forall (fun i => (i < length l)%nat) idxs ->
  exists picked, Py.mapM (nth_error l) idxs = Some picked.
Proof.
  induction 1 as [|i idxs Hi _ [picked IH]]; simpl.
  - now exists [].
  - destruct (nth_error l i) as [a|] eqn:E.
    + rewrite IH. now exists (a :: picked).
    + apply nth_error_None in E. lia.
Qed.

(** Indexing from the end only looks at the end. *)
Lemma index_from_end (pre suf : list A) (k : nat) :
  (0 < k <= length suf)%nat ->
  Py.index (pre ++ suf) (- Z.of_nat k) = nth_error suf (length suf - k).
Proof.
  intros Hk. unfold Py.index. rewrite length_app.
  destruct (0 <=? - Z.of_nat k)%Z eqn:E1; [apply Z.leb_le in E1; lia|].
  destruct (0 <=? Z.of_nat (length pre + length suf) + - Z.of_nat k)%Z eqn:E2;
    [|apply Z.leb_gt in E2; lia].
  replace (Z.to_nat (Z.of_nat (length pre + length suf) + - Z.of_nat k))
    with (length pre + (length suf - k))%nat by lia.
  rewrite nth_error_app2 by lia. f_equal. lia.
Qed.

End PyFacts.

(* ================================================================== *)
(** * Feature extraction: what the vector holds and where *)

Section ExtractionFacts.

Import FeatureExtractor.

Variable arctan2 : float -> float -> float.

Lemma nth_error_at landmarks i :
  (i < length landmarks)%nat -> nth_error landmarks i = Some (at_ landmarks i).
Proof. intros. now apply nth_error_nth'. Qed.

Lemma contour_total landmarks idxs :
  Forall (fun i => (i < length landmarks)%nat) idxs ->
  contour landmarks idxs =
  Some (map (fun i => [lm_x (at_ landmarks i); lm_y (at_ landmarks i)]) idxs).
Proof.
  intros H. apply mapM_total. eapply Forall_impl; [|exact H].
  intros i Hi. unfold xy. now rewrite nth_error_at.
Qed.

(** On a frame of the refined mesh no lookup fails and no test stands
    between the landmarks and the 21 entries of the vector. *)
Lemma extract_eye_features_total landmarks :
  (478 <= length landmarks)%nat ->
  exists features,
    extract_eye_features arctan2 landmarks = Some features /\
    length features = 21%nat.
Proof.
  intros H.
  unfold extract_eye_features, measure, face_width_of.
  rewrite !contour_total
    by (unfold LEFT_EYE, RIGHT_EYE, LEFT_IRIS, RIGHT_IRIS;
        repeat constructor; lia).
  cbn [LEFT_EYE RIGHT_EYE LEFT_IRIS RIGHT_IRIS map firstn nth].
  rewrite !nth_error_at by lia.
  generalize (at_ landmarks). intros L.
  cbn -[Py.float PrimFloat.sqrt PrimFloat.add PrimFloat.sub
        PrimFloat.mul PrimFloat.div].
  eexists; split; reflexivity.
Qed.

(** Whatever the frame, the last thirteen entries of the vector are
    the two EARs, the two iris-to-corner distances, nose, chin, the two
    angles, the two offsets and the face width: counted from the end,
    the EARs sit at -13 and -12, and -6 and -5 are the chin's [y] and
    the head pitch. *)
Lemma concatenate_tail (m : Measurements) nose_x nose_y chin_x chin_y :
  nose_xy m = [nose_x; nose_y] ->
  chin_xy m = [chin_x; chin_y] ->
  Py.index (concatenate m) (-13) = Some (left_ear m) /\
  Py.index (concatenate m) (-12) = Some (right_ear m) /\
  Py.index (concatenate m) (-6) = Some chin_y /\
  Py.index (concatenate m) (-5) = Some (head_pitch m).
Proof.
  intros Hn Hc. unfold concatenate. rewrite Hn, Hc.
  rewrite 3!(app_assoc _ _ (_ ++ _)). cbn [app].
  repeat split.
  - now rewrite (@index_from_end _ _ _ 13%nat) by (cbn; lia).
  - now rewrite (@index_from_end _ _ _ 12%nat) by (cbn; lia).
  - now rewrite (@index_from_end _ _ _ 6%nat) by (cbn; lia).
  - now rewrite (@index_from_end _ _ _ 5%nat) by (cbn; lia).
Qed.

Lemma measure_nose_chin landmarks m :
  measure arctan2 landmarks = Some m ->
  exists nose chin,
    nth_error landmarks 1 = Some nose /\
    nth_error landmarks 199 = Some chin /\
    nose_xy m = [lm_x nose; lm_y nose] /\
    chin_xy m = [lm_x chin; lm_y chin].
Proof.
  unfold measure, Py.bind. intros H.
  repeat match type of H with
         | match ?e with Some _ => _ | None => None end = Some _ =>
             destruct e eqn:?; [|discriminate H]
         end.
  injection H as <-. cbn. eauto 8.
Qed.

(** What [run] hands to [handle_blink], on every frame that
    [extract_eye_features] accepts. *)
Lemma run_ears_are_chin_and_pitch landmarks m :
  measure arctan2 landmarks = Some m ->
  exists chin,
    nth_error landmarks 199 = Some chin /\
    (features <- extract_eye_features arctan2 landmarks ;;
     Control.run_ears features) = Some (lm_y chin, head_pitch m).
Proof.
  intros Hm.
  destruct (measure_nose_chin _ Hm) as (nose & chin & _ & Hchin & Hn & Hc).
  destruct (concatenate_tail m Hn Hc) as (_ & _ & H6 & H5).
  exists chin. split; [exact Hchin|].
  unfold extract_eye_features, Control.run_ears. rewrite Hm. cbn [Py.bind].
  now rewrite H6, H5.
Qed.

End ExtractionFacts.

(** C1 (the code departs from the claim). On the synthetic frame both
    eye-aspect ratios computed by [extract_eye_features] are 1/4, yet
    the two values that [run] reads at positions -6 and -5 and hands to
    [handle_blink] are the chin's [y] coordinate, 7/8, and the head
    pitch. *)
Theorem run_ears_on_synthetic_frame :
  forall arctan2 : float -> float -> float,
  exists m,
    FeatureExtractor.measure arctan2 synthetic_frame = Some m /\
    FeatureExtractor.left_ear m = 0.25%float /\
    FeatureExtractor.right_ear m = 0.25%float /\
    (features <- FeatureExtractor.extract_eye_features arctan2 synthetic_frame ;;
     Control.run_ears features)
    = Some (0.875, arctan2 0.375 0.0625)%float /\
    0.875%float <> FeatureExtractor.left_ear m.
Proof.
  intros arctan2.
  destruct (FeatureExtractor.measure arctan2 synthetic_frame) as [m|] eqn:E;
    vm_compute in E; [|discriminate E].
  injection E as <-. eexists; split; [reflexivity|].
  repeat split; try (vm_compute; reflexivity).
  cbn. intros H. discriminate H.
Qed.

(** C2, as stated, fails: the collapsed frame has zero denominators,
    and it is neither rejected by [extract_eye_features] nor skipped by
    the sampling loop of [calibrate]. *)
Lemma collapsed_frame_is_not_skipped :
  ~ (forall (arctan2 : float -> float -> float) landmarks,
        zero_denominator landmarks = true ->
        FeatureExtractor.extract_eye_features arctan2 landmarks = None \/
        Calibration.sample arctan2 [detected landmarks] [] = Some []).
Proof.
  intros H.
  destruct (H arctan2_of_frames collapsed_frame) as [E|E];
    [vm_compute; reflexivity| vm_compute in E; discriminate E ..].
Qed.

(** What the collapsed frame yields: a full vector whose EARs and iris
    offsets are NaN (0/0 in binary64). *)
Example collapsed_frame_features :
  forall arctan2 : float -> float -> float,
    FeatureExtractor.extract_eye_features arctan2 collapsed_frame
    = Some [0.5; 0.5; 0.5; 0.5; 0.5; 0.5; 0.5; 0.5;
            PrimFloat.nan; PrimFloat.nan; 0; 0;
            0.5; 0.5; 0.5; 0.5;
            arctan2 0 0; arctan2 0 0;
            PrimFloat.nan; PrimFloat.nan; 0]%float.
Proof. intros. vm_compute. reflexivity. Qed.

(** C2 (amended). [extract_eye_features] tests no denominator: on
    every frame of the refined mesh, whatever its geometry, it returns
    a vector of 21 entries, and the sampling loop appends that vector
    to the data of the current target. *)
Theorem extraction_never_skips :
  forall (arctan2 : float -> float -> float) landmarks,
    (478 <= length landmarks)%nat ->
    exists features,
      FeatureExtractor.extract_eye_features arctan2 landmarks = Some features /\
      length features = 21%nat /\
      forall rest point_data,
        Calibration.sample arctan2 (detected landmarks :: rest) point_data
        = Calibration.sample arctan2 rest (point_data ++ [features]).
Proof.
  intros arctan2 landmarks H.
  destruct (extract_eye_features_total arctan2 landmarks H) as (f & Hf & Hlen).
  exists f. repeat split; trivial.
  intros rest point_data. cbn [Calibration.sample]. now rewrite Hf.
Qed.

Lemma extraction_never_skips_witness :
  zero_denominator collapsed_frame = true /\
  exists features,
    FeatureExtractor.extract_eye_features arctan2_of_frames collapsed_frame
    = Some features /\
    length features = 21%nat /\
    forall rest point_data,
      Calibration.sample arctan2_of_frames (detected collapsed_frame :: rest) point_data
      = Calibration.sample arctan2_of_frames rest (point_data ++ [features]).
Proof.
  split; [vm_compute; reflexivity|].
  apply (extraction_never_skips arctan2_of_frames collapsed_frame).
  unfold collapsed_frame. rewrite repeat_length. lia.
Defined.

(* ================================================================== *)
(** * Calibration: the grid, the per-target threshold, the final fit *)

(** C5 (the code departs from the claim). On a 1920 x 1080 screen the
    tenth target generated by [calibrate] has [y = int(1920 * 0.95) =
    1824], below the bottom edge of the screen: the last entry of
    [y_points] is a fraction of the screen width. *)
Theorem tenth_target_is_off_screen :
  let s := init 1920 1080 0 in
  Calibration.make_calibration_points s 10
  = Some [(192, 108); (192, 216); (192, 324); (192, 432); (192, 540);
          (192, 648); (192, 756); (192, 864); (192, 972); (192, 1824)]%Z /\
  (screen_height s < 1824)%Z.
Proof. split; vm_compute; reflexivity. Qed.

(** With the nine targets of a recalibration the slip does not show. *)
Example nine_targets_on_screen :
  Calibration.make_calibration_points (init 1920 1080 0) 9
  = Some [(192, 108); (192, 216); (192, 324); (192, 432); (192, 540);
          (192, 648); (192, 756); (192, 864); (192, 972)]%Z.
Proof. vm_compute. reflexivity. Qed.

Section SortFacts.

Context {A : Type} (key : A -> float).

Lemma insert_by_In (a x : A) (l : list A) :
  In x (Np.insert_by key a l) -> x = a \/ In x l.
Proof.
  induction l as [|b l IH]; simpl.
  - intros [<-|[]]. now left.
  - destruct (Np.le (key a) (key b)); simpl.
    + intros [<-|H]; auto.
    + intros [<-|H]; auto. destruct (IH H); auto.
Qed.

Lemma sort_by_In (x : A) (l : list A) : In x (Np.sort_by key l) -> In x l.
Proof.
  induction l as [|a l IH]; simpl; [trivial|].
  intros H. destruct (insert_by_In _ _ _ H) as [->|H']; auto.
Qed.

End SortFacts.

Lemma argsort_in_range (v : list float) :
  Forall (fun i => (i < length v)%nat) (Np.argsort v).
Proof.
  apply Forall_forall. intros i Hi. unfold Np.argsort in Hi.
  apply in_map_iff in Hi. destruct Hi as ([j a] & <- & Hin).
  apply sort_by_In, in_combine_l, in_seq in Hin. simpl. lia.
Qed.

Lemma Forall_firstn {A} (P : A -> Prop) (n : nat) (l : list A) :
  Forall P l -> Forall P (firstn n l).
Proof.
  intros H. rewrite <- (firstn_skipn n l) in H.
  now apply Forall_app in H.
Qed.

Lemma keep_defined_range : forallb keep_defined (seq 0 5000) = true.
Proof. vm_compute. reflexivity. Qed.

Lemma keep_defined_upto (n : nat) :
  (n < 5000)%nat ->
  exists keep, Py.int (Py.float (Z.of_nat n) * 0.8)%float = Some keep.
Proof.
  intros Hn.
  assert (H : keep_defined n = true).
  { pose proof keep_defined_range as R. rewrite forallb_forall in R.
    apply R, in_seq. lia. }
  unfold keep_defined in H.
  destruct (Py.int _) as [k|]; [now exists k | discriminate H].
Qed.

Section CalibrationFacts.

Import Calibration.

Variable arctan2 : float -> float -> float.

Lemma filter_point_few (point_data : list FeatureVector) (xy : Z * Z) :
  (length point_data <= 10)%nat -> filter_point point_data xy = Some [].
Proof.
  intros H. unfold filter_point.
  destruct (10 <? length point_data)%nat eqn:E; [|reflexivity].
  apply Nat.ltb_lt in E. lia.
Qed.

Lemma filter_point_enough (point_data : list FeatureVector) (xy : Z * Z) :
  (10 < length point_data < 5000)%nat ->
  exists avg_features, filter_point point_data xy = Some [(avg_features, xy)].
Proof.
  intros [Hlo Hhi]. unfold filter_point.
  apply Nat.ltb_lt in Hlo. rewrite Hlo.
  unfold FeatureVector in *. rewrite length_map.
  destruct (keep_defined_upto Hhi) as [keep ->]. cbn [Py.bind].
  match goal with
  | |- context [Np.argsort ?d] =>
      pose proof (argsort_in_range d) as Hr; rewrite length_map in Hr
  end.
  apply (Forall_firstn (Z.to_nat keep)) in Hr.
  destruct (mapM_nth_error_total point_data Hr) as [filtered ->].
  cbn [Py.bind]. eauto.
Qed.

(** The sampling loop keeps one vector per detected frame. *)
Lemma sample_detected (landmarks : list Landmark) (features : FeatureVector) :
  FeatureExtractor.extract_eye_features arctan2 landmarks = Some features ->
  forall n point_data,
    sample arctan2 (repeat (detected landmarks) n) point_data
    = Some (point_data ++ repeat features n).
Proof.
  intros Hf. induction n as [|n IH]; intros point_data; simpl.
  - now rewrite app_nil_r.
  - rewrite Hf. cbn [Py.bind]. rewrite IH, <- app_assoc. reflexivity.
Qed.

(** The sampling and filtering of the targets touch neither the
    regressors nor the scaler. *)
Lemma collect_keeps_models (points : list (Z * Z)) :
  forall point_idx captures s s',
    collect arctan2 points point_idx captures s = Some s' ->
    model_x s' = model_x s /\ model_y s' = model_y s /\ scaler s' = scaler s.
Proof.
  induction points as [|xy points IH]; intros point_idx captures s s'; simpl.
  - intros [= <-]. auto.
  - unfold Py.bind.
    destruct (sample arctan2 (captures point_idx) []) as [pd|]; [|discriminate].
    destruct (filter_point pd xy) as [added|]; [|discriminate].
    intros H. apply IH in H. destruct s; exact H.
Qed.

End CalibrationFacts.

(** C4, as stated, fails: ten valid frames are collected for a target
    and the target contributes no sample. *)
Lemma ten_valid_frames_give_no_sample :
  exists point_data,
    Calibration.sample arctan2_of_frames (repeat (detected synthetic_frame) 10) []
    = Some point_data /\
    length point_data = 10%nat /\
    Calibration.filter_point point_data (192, 108)%Z = Some [].
Proof.
  eexists. split; [vm_compute; reflexivity|].
  split; vm_compute; reflexivity.
Qed.

(** C4 (amended). A target is marked failed and contributes no sample
    exactly when at most ten valid frames were collected for it; from
    eleven valid frames on it contributes one sample, at its own
    screen coordinate. *)
Theorem target_needs_more_than_ten_frames :
  forall (point_data : list FeatureVector) (xy : Z * Z),
    (length point_data < 5000)%nat ->
    (Calibration.filter_point point_data xy = Some []
     <-> (length point_data <= 10)%nat) /\
    ((10 < length point_data)%nat ->
     exists avg_features,
       Calibration.filter_point point_data xy = Some [(avg_features, xy)]).
Proof.
  intros point_data xy Hhi. split; [split|].
  - intros H. destruct (Nat.le_gt_cases (length point_data) 10) as [|Hlo];
      [assumption|].
    destruct (@filter_point_enough point_data xy) as [avg E]; [lia|].
    rewrite E in H. discriminate H.
  - apply filter_point_few.
  - intros Hlo. apply filter_point_enough. lia.
Qed.

Lemma target_needs_more_than_ten_frames_witness :
  let eleven := repeat (repeat 0.5%float 21) 11 in
  (Calibration.filter_point eleven (192, 108)%Z = Some []
   <-> (length eleven <= 10)%nat) /\
  ((10 < length eleven)%nat ->
   exists avg_features,
     Calibration.filter_point eleven (192, 108)%Z
     = Some [(avg_features, (192, 108)%Z)]).
Proof.
  apply (target_needs_more_than_ten_frames
           (repeat (repeat 0.5%float 21) 11) (192, 108)%Z).
  rewrite repeat_length. lia.
Defined.

(** C3. When the targets are done, a calibration set of exactly five
    samples makes [calibrate] return [False] with both regressors and
    the scaler as they were before the call; a set of exactly six makes
    it return [True] with the scaler fitted on the six feature vectors
    and the two regressors fitted on their scaled form, against the
    [x] and the [y] coordinates of the targets. *)
Theorem calibrate_needs_six_samples :
  forall (arctan2 : float -> float -> float) s num_points captures points s2,
    Calibration.make_calibration_points s num_points = Some points ->
    Calibration.collect arctan2 points 0 captures
      (set_calibration_points points s) = Some s2 ->
    (length (calibration_data s2) = 5%nat ->
     Calibration.calibrate arctan2 s true num_points captures = Some (s2, false) /\
     model_x s2 = model_x s /\ model_y s2 = model_y s /\ scaler s2 = scaler s) /\
    (length (calibration_data s2) = 6%nat ->
     let X := map fst (calibration_data s2) in
     let y_x := map (fun data => fst (snd data)) (calibration_data s2) in
     let y_y := map (fun data => snd (snd data)) (calibration_data s2) in
     exists s3,
       Calibration.calibrate arctan2 s true num_points captures = Some (s3, true) /\
       calibration_data s3 = calibration_data s2 /\
       scaler s3 = scaler_fit X /\
       model_x s3 = Some (mkRegressor 400 18 (scaler_fit X, X) y_x) /\
       model_y s3 = Some (mkRegressor 400 18 (scaler_fit X, X) y_y)).
Proof.
  intros arctan2 s num_points captures points s2 Hp Hc.
  assert (Hcal : Calibration.calibrate arctan2 s true num_points captures
                 = Some (Calibration.train s2)).
  { unfold Calibration.calibrate. simpl negb. cbv iota.
    rewrite Hp. cbn [Py.bind]. rewrite Hc. reflexivity. }
  destruct (collect_keeps_models _ _ _ _ _ Hc) as (Hx & Hy & Hs).
  split; intros Hlen.
  - rewrite Hcal. unfold Calibration.train. rewrite Hlen. cbn [Nat.leb].
    repeat split; [rewrite Hx|rewrite Hy|rewrite Hs]; now destruct s.
  - cbv zeta. rewrite Hcal. unfold Calibration.train. rewrite Hlen.
    cbn [Nat.leb]. eexists. split; [reflexivity|].
    destruct s2; cbn. auto.
Qed.

(** Two sessions of one target with eleven valid frames. In the first
    five samples are already held: the sixth arrives and the models
    are fitted. In the second four are held and models exist: the set
    ends with five samples and the models stay as they were. *)
Lemma calibrate_needs_six_samples_witness :
  let captures := fun _ : nat => repeat (detected synthetic_frame) 11 in
  let held := (repeat 0.5%float 21, (0, 0)%Z) in
  let old := mkRegressor 400 18 (scaler_fit [], []) [] in
  let five := set_calibration_data (repeat held 5) (init 1920 1080 0) in
  let four := set_models (Some old) (Some old) (scaler_fit [])
                (set_calibration_data (repeat held 4) (init 1920 1080 0)) in
  (exists s3,
      Calibration.calibrate arctan2_of_frames five true 1 captures = Some (s3, true) /\
      model_x s3 <> None /\ model_y s3 <> None) /\
  (exists s2,
      Calibration.calibrate arctan2_of_frames four true 1 captures = Some (s2, false) /\
      model_x s2 = Some old /\ model_y s2 = Some old /\
      scaler s2 = scaler_fit []).
Proof.
  cbv zeta.
  set (captures := fun _ : nat => repeat (detected synthetic_frame) 11).
  split.
  - set (s := set_calibration_data _ (init 1920 1080 0)).
    destruct (Calibration.make_calibration_points s 1) as [points|] eqn:Ep;
      [|vm_compute in Ep; discriminate Ep].
    destruct (Calibration.collect arctan2_of_frames points 0 captures
                (set_calibration_points points s)) as [s2|] eqn:Ec;
      [|vm_compute in Ep; injection Ep as <-; vm_compute in Ec;
        discriminate Ec].
    destruct (calibrate_needs_six_samples arctan2_of_frames s 1 captures Ep Ec)
      as [_ H6].
    destruct H6 as (s3 & Hcal & _ & _ & Hmx & Hmy).
    + vm_compute in Ep. injection Ep as <-. vm_compute in Ec.
      injection Ec as <-. reflexivity.
    + exists s3. rewrite Hmx, Hmy. repeat split; [exact Hcal|discriminate ..].
  - set (s := set_models _ _ _ _).
    destruct (Calibration.make_calibration_points s 1) as [points|] eqn:Ep;
      [|vm_compute in Ep; discriminate Ep].
    destruct (Calibration.collect arctan2_of_frames points 0 captures
                (set_calibration_points points s)) as [s2|] eqn:Ec;
      [|vm_compute in Ep; injection Ep as <-; vm_compute in Ec;
        discriminate Ec].
    destruct (calibrate_needs_six_samples arctan2_of_frames s 1 captures Ep Ec)
      as [H5 _].
    destruct H5 as (Hcal & Hmx & Hmy & Hsc).
    + vm_compute in Ep. injection Ep as <-. vm_compute in Ec.
      injection Ec as <-. reflexivity.
    + exists s2. rewrite Hmx, Hmy, Hsc. repeat split. exact Hcal.
Defined.

(* ================================================================== *)
(** * Per-frame control: comparisons and truncation on exact numbers *)

Section ExactFacts.

Local Open Scope Q_scope.

Lemma Qltb_lt (a b : Q) : Control.Qltb a b = true <-> a < b.
Proof.
  unfold Control.Qltb.
  rewrite negb_true_iff, <- not_true_iff_false, Qle_bool_iff.
  split; [apply Qnot_le_lt | apply Qlt_not_le].
Qed.

Lemma Qltb_ge (a b : Q) : Control.Qltb a b = false <-> b <= a.
Proof.
  unfold Control.Qltb. now rewrite negb_false_iff, Qle_bool_iff.
Qed.

Lemma half (w : Q) : w / 2 == w * (1 # 2).
Proof. field. Qed.

(** [int()] rounds toward zero: down on positive numbers, up on
    negative ones. *)
Lemma trunc_nonneg (q : Q) : 0 <= q -> Py.trunc q = Qfloor q.
Proof.
  destruct q as [n d]. unfold Qle, Py.trunc, Qfloor. simpl. intros H.
  apply Z.quot_div_nonneg; lia.
Qed.

Lemma trunc_opp (q : Q) : Py.trunc (- q) = (- Py.trunc q)%Z.
Proof.
  destruct q as [n d]. unfold Py.trunc. simpl. apply Z.quot_opp_l. lia.
Qed.

Lemma trunc_nonpos (q : Q) : q <= 0 -> Py.trunc q = (- Qfloor (- q))%Z.
Proof.
  intros H. rewrite <- (@trunc_nonneg (- q)) by lra.
  rewrite trunc_opp. lia.
Qed.

Lemma inject_Z_pos (w : Z) : (0 < w)%Z -> 0 < inject_Z w.
Proof. intros H. rewrite Zlt_Qlt in H. exact H. Qed.

Lemma Qfloor_nonneg (q : Q) : 0 <= q -> (0 <= Qfloor q)%Z.
Proof. intros H. apply (Qfloor_resp_le 0 q) in H. exact H. Qed.

Lemma Qfloor_pos (q : Q) : 1 <= q -> (0 < Qfloor q)%Z.
Proof.
  intros H. apply (Qfloor_resp_le 1 q) in H.
  change (1 <= Qfloor q)%Z in H. lia.
Qed.

End ExactFacts.

(* ================================================================== *)
(** * Smoothing *)

Section SmoothingFacts.

Local Open Scope Q_scope.

Variable s : EyeTrackerCursor.
Hypothesis width_pos : (0 < screen_width s)%Z.
Hypothesis height_pos : (0 < screen_height s)%Z.

Lemma edge_distance_x_le_1 (x_pred : Q) : Control.edge_distance_x s x_pred <= 1.
Proof.
  pose proof (inject_Z_pos width_pos) as HW.
  unfold Control.edge_distance_x. rewrite half.
  apply Qle_shift_div_r; [lra|].
  destruct (Q.min_spec x_pred (inject_Z (screen_width s) - x_pred))
    as [[H ->]|[H ->]]; lra.
Qed.

Lemma edge_distance_y_le_1 (y_pred : Q) : Control.edge_distance_y s y_pred <= 1.
Proof.
  pose proof (inject_Z_pos height_pos) as HH.
  unfold Control.edge_distance_y. rewrite half.
  apply Qle_shift_div_r; [lra|].
  destruct (Q.min_spec y_pred (inject_Z (screen_height s) - y_pred))
    as [[H ->]|[H ->]]; lra.
Qed.

Lemma edge_distance_x_nonneg (x_pred : Q) :
  0 <= x_pred <= inject_Z (screen_width s) ->
  0 <= Control.edge_distance_x s x_pred.
Proof.
  intros Hx. pose proof (inject_Z_pos width_pos) as HW.
  unfold Control.edge_distance_x. rewrite half.
  apply Qle_shift_div_l; [lra|].
  destruct (Q.min_spec x_pred (inject_Z (screen_width s) - x_pred))
    as [[H ->]|[H ->]]; lra.
Qed.

Lemma edge_distance_y_nonneg (y_pred : Q) :
  0 <= y_pred <= inject_Z (screen_height s) ->
  0 <= Control.edge_distance_y s y_pred.
Proof.
  intros Hy. pose proof (inject_Z_pos height_pos) as HH.
  unfold Control.edge_distance_y. rewrite half.
  apply Qle_shift_div_l; [lra|].
  destruct (Q.min_spec y_pred (inject_Z (screen_height s) - y_pred))
    as [[H ->]|[H ->]]; lra.
Qed.

Lemma edge_distance_le_1 (x_pred y_pred : Q) :
  Control.edge_distance s x_pred y_pred <= 1.
Proof.
  unfold Control.edge_distance.
  eapply Qle_trans; [apply Q.le_min_l | apply edge_distance_x_le_1].
Qed.

Lemma edge_distance_nonneg (x_pred y_pred : Q) :
  0 <= x_pred <= inject_Z (screen_width s) ->
  0 <= y_pred <= inject_Z (screen_height s) ->
  0 <= Control.edge_distance s x_pred y_pred.
Proof.
  intros Hx Hy. unfold Control.edge_distance.
  apply Q.min_glb; [now apply edge_distance_x_nonneg
                   | now apply edge_distance_y_nonneg].
Qed.

Lemma edge_distance_x_neg (x_pred : Q) :
  x_pred < 0 \/ inject_Z (screen_width s) < x_pred ->
  Control.edge_distance_x s x_pred < 0.
Proof.
  intros Hx. pose proof (inject_Z_pos width_pos) as HW.
  unfold Control.edge_distance_x. rewrite half.
  apply Qlt_shift_div_r; [lra|].
  destruct (Q.min_spec x_pred (inject_Z (screen_width s) - x_pred))
    as [[H ->]|[H ->]]; lra.
Qed.

Lemma edge_distance_y_neg (y_pred : Q) :
  y_pred < 0 \/ inject_Z (screen_height s) < y_pred ->
  Control.edge_distance_y s y_pred < 0.
Proof.
  intros Hy. pose proof (inject_Z_pos height_pos) as HH.
  unfold Control.edge_distance_y. rewrite half.
  apply Qlt_shift_div_r; [lra|].
  destruct (Q.min_spec y_pred (inject_Z (screen_height s) - y_pred))
    as [[H ->]|[H ->]]; lra.
Qed.

(** Off the screen on either axis, the edge distance is negative. *)
Lemma edge_distance_neg (x_pred y_pred : Q) :
  (x_pred < 0 \/ inject_Z (screen_width s) < x_pred) \/
  (y_pred < 0 \/ inject_Z (screen_height s) < y_pred) ->
  Control.edge_distance s x_pred y_pred < 0.
Proof.
  intros [Hx|Hy]; unfold Control.edge_distance.
  - eapply Qle_lt_trans; [apply Q.le_min_l | now apply edge_distance_x_neg].
  - eapply Qle_lt_trans; [apply Q.le_min_r | now apply edge_distance_y_neg].
Qed.

End SmoothingFacts.

(** C6, as stated, fails: the code does not clamp. A raw prediction
    100 pixels left of the screen, on a call that is not the first,
    has a negative edge distance and a negative smoothing coefficient. *)
Lemma off_screen_edge_distance_is_negative :
  let s := set_prev_xy (Some (500, 500)) (init 1920 1080 0) in
  ~ (0 <= Control.edge_distance s (-100) 540 <= 1) /\
  ~ (0 <= Control.adjusted_smoothing s (-100) 540 <= smoothing_factor s).
Proof.
  cbv zeta. split; intros [H _]; vm_compute in H; apply H; reflexivity.
Qed.

(** C6 (amended). On every call after the first, the output per axis
    is [previous * a + raw * (1 - a)] with [a = smoothing_factor *
    edge distance], and it becomes the new previous position. The edge
    distance is at most 1 for any raw coordinate, so [a] is at most
    [smoothing_factor]; it is not clamped from below: it lies in
    [0, 1], and [a] in [0, smoothing_factor], when the raw coordinate
    is on the screen, and it is negative, with [a] at most 0 (negative
    for a positive [smoothing_factor]), when the raw coordinate is off
    the screen on either axis. *)
Theorem smoothing_after_first_call :
  forall s prev_x prev_y x_pred y_pred,
    prev_xy s = Some (prev_x, prev_y) ->
    (0 < screen_width s)%Z -> (0 < screen_height s)%Z ->
    0 <= smoothing_factor s ->
    let d := Control.edge_distance s x_pred y_pred in
    let a := Control.adjusted_smoothing s x_pred y_pred in
    let out := (prev_x * a + x_pred * (1 - a), prev_y * a + y_pred * (1 - a)) in
    a = smoothing_factor s * d /\
    Control.smooth_movement s x_pred y_pred = (set_prev_xy (Some out) s, out) /\
    d <= 1 /\ a <= smoothing_factor s /\
    (0 <= x_pred <= inject_Z (screen_width s) ->
     0 <= y_pred <= inject_Z (screen_height s) ->
     0 <= d /\ 0 <= a) /\
    ((x_pred < 0 \/ inject_Z (screen_width s) < x_pred) \/
     (y_pred < 0 \/ inject_Z (screen_height s) < y_pred) ->
     d < 0 /\ a <= 0 /\ (0 < smoothing_factor s -> a < 0)).
Proof.
  intros s prev_x prev_y x_pred y_pred Hprev HW HH Hsf. cbv zeta.
  pose proof (@edge_distance_le_1 s HW x_pred y_pred) as H1.
  unfold Control.adjusted_smoothing.
  split; [reflexivity|]. split.
  { unfold Control.smooth_movement. rewrite Hprev. reflexivity. }
  split; [exact H1|]. split; [nra|]. split.
  - intros Hx Hy.
    pose proof (@edge_distance_nonneg s HW HH x_pred y_pred Hx Hy). split; nra.
  - intros Hoff.
    pose proof (@edge_distance_neg s HW HH x_pred y_pred Hoff) as Hneg.
    split; [exact Hneg|]. split; [nra|]. intros Hpos. nra.
Qed.

(** A prediction 100 pixels left of the screen on a 1920 x 1080
    display: the edge distance is negative and so is the smoothing
    coefficient. *)
Lemma smoothing_after_first_call_witness :
  let s := set_prev_xy (Some (900, 500)) (init 1920 1080 0) in
  let d := Control.edge_distance s (-100) 540 in
  let a := Control.adjusted_smoothing s (-100) 540 in
  let out := (900 * a + (-100) * (1 - a), 500 * a + 540 * (1 - a)) in
  Control.smooth_movement s (-100) 540 = (set_prev_xy (Some out) s, out) /\
  d <= 1 /\ d < 0 /\ a < 0.
Proof.
  cbv zeta.
  destruct (@smoothing_after_first_call
              (set_prev_xy (Some (900, 500)) (init 1920 1080 0))
              900 500 (-100) 540)
    as (_ & Hout & Hd & _ & _ & Hoff).
  - reflexivity.
  - reflexivity.
  - reflexivity.
  - vm_compute. discriminate.
  - destruct Hoff as (Hneg & _ & Ha).
    + left. left. reflexivity.
    + split; [exact Hout|]. split; [exact Hd|]. split; [exact Hneg|].
      apply Ha. reflexivity.
Defined.

(* ================================================================== *)
(** * Scrolling *)

Section ScrollFacts.

Local Open Scope Q_scope.

Variable s : EyeTrackerCursor.
Hypothesis scroll_mode : mode s = scroll.

Lemma upper_edge : 0.5 - 0.3 / 2 == 0.35.
Proof. reflexivity. Qed.

Lemma lower_edge : 0.5 + 0.3 / 2 == 0.65.
Proof. reflexivity. Qed.

Lemma handle_scroll_inside (y_position : Q) :
  0.35 <= normalized s y_position <= 0.65 ->
  Control.handle_scroll s y_position = ([], 0%Z).
Proof.
  intros [Hlo Hhi]. unfold Control.handle_scroll, normalized in *.
  rewrite scroll_mode.
  destruct (Control.Qltb _ (0.5 - 0.3 / 2)) eqn:E1.
  { apply Qltb_lt in E1. rewrite upper_edge in E1. lra. }
  destruct (Control.Qltb (0.5 + 0.3 / 2) _) eqn:E2.
  { apply Qltb_lt in E2. rewrite lower_edge in E2. lra. }
  reflexivity.
Qed.

Lemma handle_scroll_above (y_position : Q) :
  normalized s y_position < 0.35 ->
  let amount := Qfloor (10 * (0.35 - normalized s y_position)) in
  Control.handle_scroll s y_position = ([pyautogui_scroll amount], amount).
Proof.
  intros Hn. cbv zeta. unfold Control.handle_scroll, normalized in *.
  rewrite scroll_mode.
  destruct (Control.Qltb _ (0.5 - 0.3 / 2)) eqn:E1.
  - rewrite trunc_nonneg by (rewrite upper_edge; lra).
    match goal with
    | |- ([pyautogui_scroll (Qfloor ?a)], _) = ([pyautogui_scroll (Qfloor ?b)], _) =>
        assert (E : a == b) by (rewrite upper_edge; ring)
    end.
    now rewrite E.
  - apply Qltb_ge in E1. rewrite upper_edge in E1. lra.
Qed.

Lemma handle_scroll_below (y_position : Q) :
  0.65 < normalized s y_position ->
  let amount := (- Qfloor (10 * (normalized s y_position - 0.65)))%Z in
  Control.handle_scroll s y_position = ([pyautogui_scroll amount], amount).
Proof.
  intros Hn. cbv zeta. unfold Control.handle_scroll, normalized in *.
  rewrite scroll_mode.
  destruct (Control.Qltb _ (0.5 - 0.3 / 2)) eqn:E1.
  { apply Qltb_lt in E1. rewrite upper_edge in E1. lra. }
  destruct (Control.Qltb (0.5 + 0.3 / 2) _) eqn:E2.
  - rewrite trunc_nonpos by (rewrite lower_edge; lra).
    match goal with
    | |- ([pyautogui_scroll (- Qfloor ?a)], _)
         = ([pyautogui_scroll (- Qfloor ?b)], _) =>
        assert (E : a == b) by (rewrite lower_edge; ring)
    end.
    now rewrite E.
  - apply Qltb_ge in E2. rewrite lower_edge in E2. lra.
Qed.

End ScrollFacts.

(* ================================================================== *)
(** * Scrolling in binary64: the rows of a display *)

Section Binary64ScrollFacts.

Lemma scroll_rows_evaluated :
  forallb (fun height => forallb (scroll_row_checked height) (rows height))
          display_heights = true.
Proof. vm_compute. reflexivity. Qed.

Lemma rows_In (height y : Z) : (0 <= y <= height)%Z -> In y (rows height).
Proof.
  intros Hy. unfold rows. apply in_map_iff. exists (Z.to_nat y).
  split; [lia|]. apply in_seq. lia.
Qed.

Lemma scroll_row_evaluated (height y : Z) :
  In height display_heights -> (0 <= y <= height)%Z ->
  scroll_row_checked height y = true.
Proof.
  intros Hh Hy.
  pose proof (proj1 (forallb_forall _ _) scroll_rows_evaluated height Hh) as H.
  exact (proj1 (forallb_forall _ _) H y (rows_In Hy)).
Qed.

(** [handle_scroll] reads the mode and the screen height only. *)
Lemma binary64_scroll_tracker (s : EyeTrackerCursor) (y_position : float) :
  mode s = scroll ->
  Binary64.handle_scroll s y_position
  = Binary64.handle_scroll (scroll_tracker (screen_height s)) y_position.
Proof.
  intros Hmode. unfold Binary64.handle_scroll. now rewrite Hmode.
Qed.

Lemma scroll_amount_at_tracker (s : EyeTrackerCursor) (y : Z) :
  mode s = scroll ->
  scroll_amount_at s y = scroll_amount_at (scroll_tracker (screen_height s)) y.
Proof.
  intros Hmode. unfold scroll_amount_at.
  now rewrite (@binary64_scroll_tracker s _ Hmode).
Qed.

Lemma one_scroll_call_eq (acts : list Actuation) (amount : Z) :
  one_scroll_call acts amount = true -> acts = [pyautogui_scroll amount].
Proof.
  destruct acts as [|[| | | |a] [|]]; cbn; try discriminate.
  intros H. apply Z.eqb_eq in H. now subst.
Qed.

Lemma no_call_eq (acts : list Actuation) : no_call acts = true -> acts = [].
Proof. destruct acts; [reflexivity | discriminate]. Qed.

(** One row, read off the evaluation. *)
Lemma scroll_row_facts (s : EyeTrackerCursor) (y : Z) :
  mode s = scroll ->
  In (screen_height s) display_heights ->
  (0 <= y <= screen_height s)%Z ->
  let n := (inject_Z y / inject_Z (screen_height s))%Q in
  exists acts amount above mirrored,
    Binary64.handle_scroll s (Py.float y) = Some (acts, amount) /\
    scroll_amount_at s (y - 1) = Some above /\
    scroll_amount_at s (screen_height s - y) = Some mirrored /\
    (amount <= above)%Z /\ (-1 <= amount + mirrored <= 1)%Z /\
    ((0.35 <= n <= 0.65)%Q -> acts = [] /\ amount = 0%Z) /\
    ((n < 0.35)%Q ->
     let steps := (10 * (0.35 - n))%Q in
     acts = [pyautogui_scroll amount] /\ (0 <= amount)%Z /\
     (amount = Qfloor steps \/
      (steps == inject_Z (Qfloor steps))%Q /\ amount = (Qfloor steps - 1)%Z) /\
     ((0.1 < 0.35 - n)%Q -> (0 < amount)%Z)) /\
    ((0.65 < n)%Q ->
     let steps := (10 * (n - 0.65))%Q in
     acts = [pyautogui_scroll amount] /\ (amount <= 0)%Z /\
     (amount = (- Qfloor steps)%Z \/
      (steps == inject_Z (Qfloor steps))%Q /\ amount = (- Qfloor steps + 1)%Z) /\
     ((0.1 < n - 0.65)%Q -> (amount < 0)%Z)).
Proof.
  intros Hmode Hh Hy. cbv zeta.
  pose proof (scroll_row_evaluated Hh Hy) as H.
  unfold scroll_row_checked in H.
  rewrite (@binary64_scroll_tracker s _ Hmode),
          !(@scroll_amount_at_tracker s _ Hmode).
  destruct (Binary64.handle_scroll (scroll_tracker (screen_height s)) (Py.float y))
    as [[acts amount]|]; [|discriminate].
  destruct (scroll_amount_at (scroll_tracker (screen_height s)) (y - 1))
    as [above|]; [|discriminate].
  destruct (scroll_amount_at (scroll_tracker (screen_height s))
              (screen_height s - y)) as [mirrored|]; [|discriminate].
  apply andb_prop in H. destruct H as [H Hm2].
  apply andb_prop in H. destruct H as [H Hm1].
  apply andb_prop in H. destruct H as [Hzone Hab].
  apply Z.leb_le in Hm2, Hm1, Hab.
  exists acts, amount, above, mirrored.
  do 3 (split; [reflexivity|]). split; [exact Hab|]. split; [lia|].
  set (n := (inject_Z y / inject_Z (screen_height s))%Q) in *.
  destruct (Control.Qltb n 0.35) eqn:E1.
  - apply Qltb_lt in E1.
    apply andb_prop in Hzone. destruct Hzone as [Hzone Hpos].
    apply andb_prop in Hzone. destruct Hzone as [Hzone Hstep].
    apply andb_prop in Hzone. destruct Hzone as [Hcall Hsign].
    split; [intros [Hlo _]; lra|]. split; [|intros Hhi; lra].
    intros _. cbv zeta.
    split; [now apply one_scroll_call_eq|].
    split; [now apply Z.leb_le|]. split.
    + apply orb_prop in Hstep. destruct Hstep as [Hs|Hs].
      * left. now apply Z.eqb_eq.
      * right. apply andb_prop in Hs. destruct Hs as [Hq Hz].
        split; [now apply Qeq_bool_iff | now apply Z.eqb_eq].
    + intros Hfar. destruct (Control.Qltb 0.1 (0.35 - n)) eqn:E.
      * now apply Z.ltb_lt.
      * apply Qltb_ge in E. lra.
  - apply Qltb_ge in E1.
    destruct (Control.Qltb 0.65 n) eqn:E2.
    + apply Qltb_lt in E2.
      apply andb_prop in Hzone. destruct Hzone as [Hzone Hpos].
      apply andb_prop in Hzone. destruct Hzone as [Hzone Hstep].
      apply andb_prop in Hzone. destruct Hzone as [Hcall Hsign].
      split; [intros [_ Hhi]; lra|]. split; [intros Hlo; lra|].
      intros _. cbv zeta.
      split; [now apply one_scroll_call_eq|].
      split; [now apply Z.leb_le|]. split.
      * apply orb_prop in Hstep. destruct Hstep as [Hs|Hs].
        -- left. now apply Z.eqb_eq.
        -- right. apply andb_prop in Hs. destruct Hs as [Hq Hz].
           split; [now apply Qeq_bool_iff | now apply Z.eqb_eq].
      * intros Hfar. destruct (Control.Qltb 0.1 (n - 0.65)) eqn:E.
        -- now apply Z.ltb_lt.
        -- apply Qltb_ge in E. lra.
    + apply Qltb_ge in E2.
      apply andb_prop in Hzone. destruct Hzone as [Hcall Hzero].
      split; [|split; intros; lra].
      intros _. split; [now apply no_call_eq | now apply Z.eqb_eq].
Qed.


End Binary64ScrollFacts.




(* ================================================================== *)
(** * Blinks *)

Section BlinkFacts.

Local Open Scope Q_scope.

(** [detect_blink] only ever writes [ear_history]. *)
Lemma detect_blink_frame (s : EyeTrackerCursor) (avg_ear : Q) :
  let s1 := fst (Control.detect_blink s avg_ear) in
  mode s1 = mode s /\
  blink_start_time s1 = blink_start_time s /\
  last_blink_time s1 = last_blink_time s /\
  blink_cooldown s1 = blink_cooldown s /\
  long_blink_threshold s1 = long_blink_threshold s /\
  dragging s1 = dragging s /\
  blink_relative_mode s1 = blink_relative_mode s /\
  blink_relative_threshold s1 = blink_relative_threshold s.
Proof.
  unfold Control.detect_blink.
  destruct (blink_relative_mode s) as [[|]|] eqn:E; cbn [fst].
  2, 3: now rewrite E.
  destruct (10 <=? _)%nat; cbn [fst]; destruct s; cbn in *; now rewrite E.
Qed.

Lemma switch_mode_next (s : EyeTrackerCursor) :
  snd (Control.switch_mode s) = next_mode (mode s) /\
  mode (fst (Control.switch_mode s)) = next_mode (mode s).
Proof. destruct s as [? ? ? ? ? ? ? m]; destruct m; split; reflexivity. Qed.

(** One blink-end transition, spelled out. *)
Lemma handle_blink_end (s : EyeTrackerCursor) (now left_ear right_ear start : Q) :
  snd (Control.detect_blink s ((left_ear + right_ear) / 2)) = false ->
  blink_start_time s = Some start ->
  let s1 := fst (Control.detect_blink s ((left_ear + right_ear) / 2)) in
  let s2 := set_blink_start_time None s1 in
  let s3 := set_last_blink_time now s2 in
  let duration := now - start in
  Control.handle_blink s now left_ear right_ear =
  if Control.Qltb (blink_cooldown s) (now - last_blink_time s) then
    if Control.Qltb duration 0.3 then
      match mode s with
      | cursor | click => (s3, [pyautogui_click], Some "click"%string)
      | drag =>
          let engaged := match dragging s with
                         | Some d => d
                         | None => false
                         end in
          (set_dragging (Some (negb engaged)) s3,
           [if negb engaged then pyautogui_mouseDown else pyautogui_mouseUp],
           Some "drag_toggle"%string)
      | scroll => (s3, [], None)
      end
    else if Qle_bool 0.3 duration
            && Control.Qltb duration (long_blink_threshold s) then
      match mode s with
      | cursor | click =>
          (s3, [pyautogui_rightClick], Some "right_click"%string)
      | _ => (s3, [], None)
      end
    else
      (fst (Control.switch_mode s3), [],
       Some ("mode_switch_" ++ mode_name (next_mode (mode s)))%string)
  else (s2, [], None).
Proof.
  intros Hblink Hstart. cbv zeta.
  pose proof (detect_blink_frame s ((left_ear + right_ear) / 2)) as F.
  cbv zeta in F. unfold Control.handle_blink.
  destruct (Control.detect_blink s ((left_ear + right_ear) / 2)) as [s1 b].
  cbn [fst snd] in *. subst b.
  destruct F as (Fm & Fs & Fl & Fc & Flong & Fd & _).
  rewrite Fs, Hstart.
  destruct s1; cbn in *. subst.
  repeat match goal with
         | |- context [if ?c then _ else _] => destruct c
         end;
    try reflexivity; destruct (mode s); reflexivity.
Qed.

(** Every call of [handle_blink], as far as the cooldown is concerned:
    it either leaves [last_blink_time] alone and returns [None], or
    finds the cooldown elapsed and sets [last_blink_time] to the time
    of the call. *)
Lemma handle_blink_cooldown (s : EyeTrackerCursor) (now left_ear right_ear : Q) :
  let s' := fst (fst (Control.handle_blink s now left_ear right_ear)) in
  let event := snd (Control.handle_blink s now left_ear right_ear) in
  blink_cooldown s' = blink_cooldown s /\
  ((last_blink_time s' = last_blink_time s /\ event = None) \/
   (last_blink_time s' = now /\ blink_cooldown s < now - last_blink_time s)).
Proof.
  cbv zeta.
  pose proof (detect_blink_frame s ((left_ear + right_ear) / 2)) as F.
  cbv zeta in F. destruct F as (Fm & Fs & Fl & Fc & Flong & Fd & _).
  destruct (snd (Control.detect_blink s ((left_ear + right_ear) / 2))) eqn:Hb;
    destruct (blink_start_time s) as [start|] eqn:Hs.
  - unfold Control.handle_blink.
    destruct (Control.detect_blink _ _) as [s1 b]. cbn [fst snd] in *.
    subst b. rewrite Fs. cbn [fst snd]. auto.
  - unfold Control.handle_blink.
    destruct (Control.detect_blink _ _) as [s1 b]. cbn [fst snd] in *.
    subst b. rewrite Fs. cbn [fst snd]. destruct s1; cbn in *. auto.
  - rewrite (handle_blink_end s now left_ear right_ear Hb Hs).
    destruct (fst (Control.detect_blink _ _))
      as [f1 f2 f3 f4 f5 f6 f7 f8 f9 f10 f11 f12 f13 f14 f15 f16 f17 f18 f19 f20];
      cbn in Fm, Fl, Fc, Fd |- *.
    destruct (Control.Qltb (blink_cooldown s) (now - last_blink_time s)) eqn:E.
    + apply Qltb_lt in E.
      repeat match goal with
             | |- context [if ?c then _ else _] => destruct c
             end;
        destruct (mode s); cbn; auto.
    + cbn. auto.
  - unfold Control.handle_blink.
    destruct (Control.detect_blink _ _) as [s1 b]. cbn [fst snd] in *.
    subst b. rewrite Fs. cbn [fst snd]. auto.
Qed.

Lemma blink_events_spaced (frames : list (Q * Q * Q)) :
  forall s,
    0 <= blink_cooldown s ->
    Forall (fun ev => blink_cooldown s < fst ev - last_blink_time s)
           (blink_events s frames) /\
    spaced (blink_cooldown s) (blink_events s frames).
Proof.
  induction frames as [|[[now left_ear] right_ear] frames IH]; intros s Hc.
  - split; constructor.
  - pose proof (handle_blink_cooldown s now left_ear right_ear) as H.
    cbv zeta in H. cbn [blink_events].
    destruct (Control.handle_blink s now left_ear right_ear)
      as [[s' acts] event].
    cbn [fst snd] in H. destruct H as (Hcool & Hstep).
    destruct (IH s') as (Hall & Hsp); [rewrite Hcool; exact Hc|].
    rewrite Hcool in Hall, Hsp.
    destruct Hstep as [(Hlast & ->)|(Hlast & Hgap)]; rewrite Hlast in Hall.
    + now split.
    + assert (Hall' : Forall (fun ev => blink_cooldown s
                                        < fst ev - last_blink_time s)
                             (blink_events s' frames)).
      { eapply Forall_impl; [|exact Hall]. cbn. intros ev Hev. lra. }
      destruct event as [e|]; split; trivial.
      * constructor; trivial.
      * now constructor.
Qed.

(** The history update of relative mode, spelled out. *)
Lemma detect_blink_relative (s : EyeTrackerCursor) (avg_ear : Q) :
  blink_relative_mode s = Some true ->
  let old := match ear_history s with
             | Some h => h
             | None => []
             end in
  let history := if (30 <? length (old ++ [avg_ear]))%nat
                 then tl (old ++ [avg_ear]) else old ++ [avg_ear] in
  Control.detect_blink s avg_ear =
  (set_ear_history (Some history) s,
   if (10 <=? length history)%nat
   then Control.Qltb avg_ear
          (Control.percentile history 80 * (1 - blink_relative_threshold s))
   else false).
Proof.
  intros Hrel. cbv zeta. unfold Control.detect_blink. rewrite Hrel.
  now destruct (10 <=? _)%nat.
Qed.

Lemma handle_blink_history (s : EyeTrackerCursor) (now left_ear right_ear : Q) :
  ear_history (fst (fst (Control.handle_blink s now left_ear right_ear)))
  = ear_history (fst (Control.detect_blink s ((left_ear + right_ear) / 2))).
Proof.
  unfold Control.handle_blink.
  destruct (Control.detect_blink s ((left_ear + right_ear) / 2)) as [s1 b].
  cbn [fst].
  destruct s1 as [f1 f2 f3 f4 f5 f6 f7 f8 f9 f10 f11 f12 f13 f14 f15 f16 f17
                    f18 f19 f20]; cbn.
  destruct b, f13; cbn; trivial.
  repeat match goal with
         | |- context [if ?c then _ else _] => destruct c
         end;
    try destruct f8; reflexivity.
Qed.

End BlinkFacts.

(** C7. When a blink ends with the cooldown elapsed, the returned event
    follows the duration [now - start]: below 0.3 it is ["click"] in
    cursor and click modes and ["drag_toggle"] in drag mode (nothing in
    scroll mode); from 0.3 up to, not including, [long_blink_threshold]
    it is ["right_click"] in cursor and click modes and nothing
    otherwise; from [long_blink_threshold] on it is the mode switch to
    the next mode of the cycle. [long_blink_threshold] is 1.0 in every
    tracker the program builds; the statement needs it to be at least
    0.3. *)
Theorem blink_duration_classes :
  forall s (now left_ear right_ear start : Q),
    snd (Control.detect_blink s ((left_ear + right_ear) / 2)) = false ->
    blink_start_time s = Some start ->
    (blink_cooldown s < now - last_blink_time s)%Q ->
    (0.3 <= long_blink_threshold s)%Q ->
    let duration := (now - start)%Q in
    let event := snd (Control.handle_blink s now left_ear right_ear) in
    ((duration < 0.3)%Q ->
     event = match mode s with
             | cursor | click => Some "click"%string
             | drag => Some "drag_toggle"%string
             | scroll => None
             end) /\
    ((0.3 <= duration < long_blink_threshold s)%Q ->
     event = match mode s with
             | cursor | click => Some "right_click"%string
             | _ => None
             end) /\
    ((long_blink_threshold s <= duration)%Q ->
     event = Some ("mode_switch_" ++ mode_name (next_mode (mode s)))%string).
Proof.
  intros s now left_ear right_ear start Hblink Hstart Hcool Hlong. cbv zeta.
  rewrite (handle_blink_end s now left_ear right_ear Hblink Hstart).
  apply Qltb_lt in Hcool. rewrite Hcool.
  destruct (Control.Qltb (now - start) 0.3) eqn:Eshort;
    [apply Qltb_lt in Eshort | apply Qltb_ge in Eshort].
  - split; [|split]; intros H; [now destruct (mode s) | lra | lra].
  - destruct (Qle_bool 0.3 (now - start)) eqn:E3;
      [|rewrite <- Qle_bool_iff in Eshort; congruence].
    destruct (Control.Qltb (now - start) (long_blink_threshold s)) eqn:Elong;
      [apply Qltb_lt in Elong | apply Qltb_ge in Elong]; cbn [andb].
    + split; [|split]; intros H; [lra | now destruct (mode s) | lra].
    + split; [|split]; intros H; [lra | lra | reflexivity].
Qed.

(** The four boundary durations, on a tracker with the defaults of
    [__init__]: the eyes closed at time 1 and reopen 0.29, 0.30, 0.99
    and 1.00 seconds later. *)
Lemma blink_duration_classes_witness :
  let s := set_blink_start_time (Some 1) (init 1920 1080 0) in
  snd (Control.handle_blink s 1.29 0.3 0.3) = Some "click"%string /\
  snd (Control.handle_blink s 1.30 0.3 0.3) = Some "right_click"%string /\
  snd (Control.handle_blink s 1.99 0.3 0.3) = Some "right_click"%string /\
  snd (Control.handle_blink s 2.00 0.3 0.3) = Some "mode_switch_scroll"%string.
Proof.
  cbv zeta.
  set (s := set_blink_start_time (Some 1) (init 1920 1080 0)).
  assert (classes : forall now : Q, (0.05 < now - 0)%Q -> _) by
    exact (fun now Hcool =>
             @blink_duration_classes s now 0.3 0.3 1 eq_refl eq_refl Hcool
               ltac:(vm_compute; discriminate)).
  split; [|split; [|split]].
  - apply (classes 1.29); vm_compute; reflexivity.
  - apply (classes 1.30); [|split; [vm_compute; discriminate|]];
      vm_compute; reflexivity.
  - apply (classes 1.99); [|split; [vm_compute; discriminate|]];
      vm_compute; reflexivity.
  - apply (classes 2.00); [vm_compute; reflexivity | vm_compute; discriminate].
Defined.

(** C8, as stated, fails: the cooldown runs from the last blink end
    that passed it, whether or not that blink end emitted an event. In
    drag mode a blink of half a second ends at 1.5 and emits nothing;
    the short blink that ends at 1.53 is suppressed, although no event
    was ever emitted before it. Without the silent blink the same short
    blink toggles the drag. *)
Lemma silent_blink_restarts_cooldown :
  let s := set_mode drag (init 1920 1080 0) in
  let silent := [(1, 0.1, 0.1); (1.5, 0.3, 0.3)]%Q in
  let short := [(1.51, 0.1, 0.1); (1.53, 0.3, 0.3)]%Q in
  blink_events s silent = [] /\
  blink_events s (silent ++ short) = [] /\
  blink_events s short = [(1.53%Q, "drag_toggle"%string)].
Proof. cbv zeta. repeat split. Qed.

(** C8 (amended). A blink-end transition always clears the blinking
    state. It is dropped, with [last_blink_time] left as it was,
    exactly when the time since [last_blink_time] is at most the
    cooldown; otherwise it is accepted and becomes the new
    [last_blink_time], whether or not its class emits an event in the
    current mode. Over any sequence of frames, every emitted event
    comes more than the cooldown after each event emitted before it. *)
Theorem blink_end_clears_and_cooldown_gates :
  (forall s (now left_ear right_ear start : Q),
      snd (Control.detect_blink s ((left_ear + right_ear) / 2)) = false ->
      blink_start_time s = Some start ->
      let s' := fst (fst (Control.handle_blink s now left_ear right_ear)) in
      let event := snd (Control.handle_blink s now left_ear right_ear) in
      blink_start_time s' = None /\
      ((now - last_blink_time s <= blink_cooldown s)%Q ->
       event = None /\ last_blink_time s' = last_blink_time s) /\
      ((blink_cooldown s < now - last_blink_time s)%Q ->
       last_blink_time s' = now)) /\
  (forall s frames,
      (0 <= blink_cooldown s)%Q ->
      spaced (blink_cooldown s) (blink_events s frames)).
Proof.
  split.
  - intros s now left_ear right_ear start Hblink Hstart. cbv zeta.
    rewrite (handle_blink_end s now left_ear right_ear Hblink Hstart).
    pose proof (detect_blink_frame s ((left_ear + right_ear) / 2)) as F.
    cbv zeta in F. destruct F as (_ & _ & Fl & _).
    destruct (fst (Control.detect_blink _ _))
      as [f1 f2 f3 f4 f5 f6 f7 f8 f9 f10 f11 f12 f13 f14 f15 f16 f17 f18 f19 f20].
    cbn in Fl.
    destruct (Control.Qltb (blink_cooldown s) (now - last_blink_time s)) eqn:E;
      [apply Qltb_lt in E | apply Qltb_ge in E].
    + repeat match goal with
             | |- context [if ?c then _ else _] => destruct c
             end;
        destruct (mode s); cbn;
        (split; [reflexivity | split; intros H; [lra | reflexivity]]).
    + cbn. split; [reflexivity | split; intros H; [now split | lra]].
  - intros s frames Hc. now apply blink_events_spaced.
Qed.

(** Two short blinks in cursor mode, the second ending 0.03 s after the
    first: the first clicks, the second is dropped. *)
Lemma blink_end_clears_and_cooldown_gates_witness :
  let s := set_blink_start_time (Some 1.51) (set_last_blink_time 1.5 (init 1920 1080 0)) in
  (blink_start_time (fst (fst (Control.handle_blink s 1.53 0.3 0.3))) = None /\
   snd (Control.handle_blink s 1.53 0.3 0.3) = None /\
   last_blink_time (fst (fst (Control.handle_blink s 1.53 0.3 0.3))) = 1.5%Q) /\
  spaced 0.05
    (blink_events (init 1920 1080 0)
       [(1, 0.1, 0.1); (1.2, 0.3, 0.3); (1.21, 0.1, 0.1); (1.23, 0.3, 0.3);
        (2, 0.1, 0.1); (2.2, 0.3, 0.3)]%Q).
Proof.
  cbv zeta.
  destruct blink_end_clears_and_cooldown_gates as [Hstep Hrun].
  split.
  - destruct (Hstep (set_blink_start_time (Some 1.51)
                       (set_last_blink_time 1.5 (init 1920 1080 0)))
                1.53 0.3 0.3 1.51 eq_refl eq_refl)%Q as (Hclear & Hdrop & _).
    destruct Hdrop as [Hnone Hlast]; [vm_compute; discriminate|].
    split; [exact Hclear | split; [exact Hnone | exact Hlast]].
  - apply (Hrun (init 1920 1080 0)). vm_compute. discriminate.
Defined.

(** What the run of the witness emits: the click of the first blink
    and the click of the third. *)
Example two_of_three_blinks_click :
  blink_events (init 1920 1080 0)
    [(1, 0.1, 0.1); (1.2, 0.3, 0.3); (1.21, 0.1, 0.1); (1.23, 0.3, 0.3);
     (2, 0.1, 0.1); (2.2, 0.3, 0.3)]%Q
  = [(1.2%Q, "click"%string); (2.2%Q, "click"%string)].
Proof. reflexivity. Qed.

Lemma ear_history_set (v : option (list Q)) (s : EyeTrackerCursor) :
  ear_history (set_ear_history v s) = v.
Proof. now destruct s. Qed.

Lemma detect_blink_history_bounded (s : EyeTrackerCursor) (avg_ear : Q) :
  history_bounded s -> history_bounded (fst (Control.detect_blink s avg_ear)).
Proof.
  unfold history_bounded. intros Hb.
  destruct (blink_relative_mode s) as [[|]|] eqn:Hrel.
  - rewrite (detect_blink_relative s avg_ear Hrel). cbn [fst].
    rewrite ear_history_set.
    set (old := match ear_history s with Some h => h | None => [] end).
    assert (Hold : (length old <= 30)%nat)
      by (subst old; destruct (ear_history s); cbn; lia).
    clearbody old.
    destruct (30 <? length (old ++ [avg_ear]))%nat eqn:E.
    + destruct old as [|a old]; cbn [app tl length] in *; [lia|].
      rewrite length_app. cbn [length]. lia.
    + apply Nat.ltb_ge in E. exact E.
  - unfold Control.detect_blink. now rewrite Hrel.
  - unfold Control.detect_blink. now rewrite Hrel.
Qed.

Lemma after_frames_history_bounded (frames : list (Q * Q * Q)) :
  forall s, history_bounded s -> history_bounded (after_frames s frames).
Proof.
  induction frames as [|[[now left_ear] right_ear] frames IH]; intros s Hb.
  - exact Hb.
  - cbn [after_frames]. apply IH. unfold history_bounded.
    rewrite handle_blink_history. now apply detect_blink_history_bounded.
Qed.

(** C9. In relative mode each call appends the average EAR to the
    history and, when that makes 31 values, drops the oldest: the
    history never holds more than 30 values, over any sequence of
    frames. While it holds fewer than 10 values [is_blink] is false
    whatever the EAR, and no blink starts; from 10 values on,
    [is_blink] compares the EAR with the 80th percentile of the
    history, reduced by the relative threshold. *)
Theorem relative_history_capacity_and_warmup :
  forall s (now left_ear right_ear : Q),
    blink_relative_mode s = Some true ->
    history_bounded s ->
    let avg_ear := ((left_ear + right_ear) / 2)%Q in
    let old := match ear_history s with
               | Some h => h
               | None => []
               end in
    let is_blink := snd (Control.detect_blink s avg_ear) in
    let s' := fst (fst (Control.handle_blink s now left_ear right_ear)) in
    exists history,
      ear_history s' = Some history /\
      history = (if (length old =? 30)%nat then tl old ++ [avg_ear]
                 else old ++ [avg_ear]) /\
      (length history <= 30)%nat /\
      ((length history < 10)%nat ->
       is_blink = false /\
       (blink_start_time s = None -> blink_start_time s' = None)) /\
      ((10 <= length history)%nat ->
       is_blink = Control.Qltb avg_ear
                    (Control.percentile history 80
                     * (1 - blink_relative_threshold s))%Q) /\
      forall frames, history_bounded (after_frames s' frames).
Proof.
  intros s now left_ear right_ear Hrel Hb. cbv zeta.
  set (avg_ear := ((left_ear + right_ear) / 2)%Q).
  set (old := match ear_history s with Some h => h | None => [] end).
  assert (Hold : (length old <= 30)%nat).
  { unfold history_bounded in Hb. subst old.
    destruct (ear_history s); cbn; [exact Hb | lia]. }
  pose proof (detect_blink_relative s avg_ear Hrel) as D. cbv zeta in D.
  fold old in D.
  assert (Hhist : (if (30 <? length (old ++ [avg_ear]))%nat
                   then tl (old ++ [avg_ear]) else old ++ [avg_ear])
                  = (if (length old =? 30)%nat then tl old ++ [avg_ear]
                     else old ++ [avg_ear])).
  { rewrite length_app. cbn [length].
    destruct (length old =? 30)%nat eqn:E30.
    - apply Nat.eqb_eq in E30. rewrite E30. cbn [Nat.ltb Nat.leb Nat.add].
      destruct old; [discriminate E30 | reflexivity].
    - apply Nat.eqb_neq in E30.
      destruct (30 <? length old + 1)%nat eqn:E; [|reflexivity].
      apply Nat.ltb_lt in E. lia. }
  rewrite Hhist in D.
  set (history := if (length old =? 30)%nat then tl old ++ [avg_ear]
                  else old ++ [avg_ear]) in *.
  assert (Hlen : (length history <= 30)%nat).
  { subst history. destruct (length old =? 30)%nat eqn:E30.
    - apply Nat.eqb_eq in E30. destruct old; [discriminate E30|].
      cbn in *. rewrite length_app. cbn. lia.
    - apply Nat.eqb_neq in E30. rewrite length_app. cbn. lia. }
  assert (Hs' : ear_history
                  (fst (fst (Control.handle_blink s now left_ear right_ear)))
                = Some history).
  { rewrite handle_blink_history. fold avg_ear. rewrite D. cbn [fst].
    apply ear_history_set. }
  exists history. split; [exact Hs'|]. split; [reflexivity|].
  split; [exact Hlen|]. split; [|split].
  - intros Hfew. assert (E : (10 <=? length history)%nat = false)
      by (apply Nat.leb_gt; exact Hfew).
    rewrite D. cbn [snd]. rewrite E. split; [reflexivity|].
    intros Hstart. unfold Control.handle_blink. fold avg_ear. rewrite D, E.
    destruct s as [f1 f2 f3 f4 f5 f6 f7 f8 f9 f10 f11 f12 f13 f14 f15 f16 f17
                     f18 f19 f20]; cbn in *. now rewrite Hstart.
  - intros Hmany. assert (E : (10 <=? length history)%nat = true)
      by (apply Nat.leb_le; exact Hmany).
    rewrite D. cbn [snd]. now rewrite E.
  - intros frames. apply after_frames_history_bounded.
    unfold history_bounded. now rewrite Hs'.
Qed.

(** The tenth value makes the detector eligible: with nine values of
    0.3 in the history and a relative threshold of 0.2, an average EAR
    of 0.1 is a blink; with eight it is not. *)
Lemma relative_history_capacity_and_warmup_witness :
  let relative := set_blink_relative (Some true) 0.2 (init 1920 1080 0) in
  let nine := set_ear_history (Some (repeat 0.3 9)) relative in
  let eight := set_ear_history (Some (repeat 0.3 8)) relative in
  (exists history,
      ear_history (fst (fst (Control.handle_blink nine 1 0.1 0.1))) = Some history /\
      length history = 10%nat /\
      snd (Control.detect_blink nine 0.1) = true /\
      blink_start_time (fst (fst (Control.handle_blink nine 1 0.1 0.1))) = Some 1%Q) /\
  (exists history,
      ear_history (fst (fst (Control.handle_blink eight 1 0.1 0.1))) = Some history /\
      length history = 9%nat /\
      snd (Control.detect_blink eight 0.1) = false /\
      blink_start_time (fst (fst (Control.handle_blink eight 1 0.1 0.1))) = None).
Proof.
  cbv zeta.
  set (relative := set_blink_relative (Some true) 0.2 (init 1920 1080 0)).
  split.
  - destruct (@relative_history_capacity_and_warmup
                (set_ear_history (Some (repeat 0.3 9)) relative) 1 0.1 0.1
                eq_refl)%Q
      as (history & Hh & Heq & _ & _ & Hmany & _).
    { cbn. lia. }
    exists history. split; [exact Hh|].
    assert (Hlen : length history = 10%nat) by (rewrite Heq; reflexivity).
    split; [exact Hlen|]. split; [|reflexivity].
    transitivity (snd (Control.detect_blink
                         (set_ear_history (Some (repeat 0.3 9)) relative)
                         ((0.1 + 0.1) / 2))%Q); [reflexivity|].
    rewrite Hmany by (rewrite Hlen; lia). rewrite Heq. reflexivity.
  - destruct (@relative_history_capacity_and_warmup
                (set_ear_history (Some (repeat 0.3 8)) relative) 1 0.1 0.1
                eq_refl)%Q
      as (history & Hh & Heq & _ & Hfew & _ & _).
    { cbn. lia. }
    exists history. split; [exact Hh|].
    assert (Hlen : length history = 9%nat) by (rewrite Heq; reflexivity).
    split; [exact Hlen|].
    destruct Hfew as [Hno Hstart]; [rewrite Hlen; lia|].
    split; [|exact (Hstart eq_refl)].
    transitivity (snd (Control.detect_blink
                         (set_ear_history (Some (repeat 0.3 8)) relative)
                         ((0.1 + 0.1) / 2))%Q); [reflexivity|exact Hno].
Defined.

(* ================================================================== *)
(** * Modes, drag and the mouse button *)

Section ModeFacts.

Local Open Scope Q_scope.

Lemma switch_mode_speed (s : EyeTrackerCursor) :
  mode (fst (Control.switch_mode s)) = next_mode (mode s) /\
  cursor_speed (fst (Control.switch_mode s)) = speed_of (next_mode (mode s)).
Proof.
  destruct s as [f1 f2 f3 f4 f5 f6 f7 m f9 f10 f11 f12 f13 f14 f15 f16 f17 f18
                   f19 f20].
  destruct m; split; reflexivity.
Qed.

(** X1. Four consecutive mode switches come back to the mode they
    started from, with the speed constant of that mode, and touch no
    other attribute; each single switch returns the next mode of the
    cycle and installs its speed constant. *)
Theorem switch_mode_four_cycle :
  forall s,
    let once := Control.switch_mode s in
    let four := Run.key_m (Run.key_m (Run.key_m (Run.key_m s))) in
    snd once = next_mode (mode s) /\
    mode (fst once) = next_mode (mode s) /\
    cursor_speed (fst once) = speed_of (next_mode (mode s)) /\
    four = set_cursor_speed (speed_of (mode s)) s.
Proof.
  intros [f1 f2 f3 f4 f5 f6 f7 m f9 f10 f11 f12 f13 f14 f15 f16 f17 f18 f19 f20].
  destruct m; repeat split.
Qed.

(** What one call of [handle_blink] can do to the mode, the speed and
    the drag: nothing, a drag toggle in drag mode, or a mode switch. *)
Lemma handle_blink_effect (s : EyeTrackerCursor) (now left_ear right_ear : Q) :
  let s' := fst (fst (Control.handle_blink s now left_ear right_ear)) in
  let acts := snd (fst (Control.handle_blink s now left_ear right_ear)) in
  (mode s' = mode s /\ cursor_speed s' = cursor_speed s /\
   dragging s' = dragging s /\
   (acts = [] \/ acts = [pyautogui_click] \/ acts = [pyautogui_rightClick])) \/
  (mode s = drag /\ mode s' = drag /\ cursor_speed s' = cursor_speed s /\
   dragging s' = Some (negb (engaged s)) /\
   acts = [if negb (engaged s) then pyautogui_mouseDown else pyautogui_mouseUp]) \/
  (mode s' = next_mode (mode s) /\
   cursor_speed s' = speed_of (next_mode (mode s)) /\
   dragging s' = dragging s /\ acts = []).
Proof.
  cbv zeta. unfold Control.handle_blink, Control.detect_blink, engaged.
  destruct s as [f1 f2 f3 f4 f5 f6 f7 m f9 f10 f11 f12 start f14 f15 f16 rel
                   f18 f19 f20].
  destruct m, start as [start|], rel as [[|]|]; cbn;
    repeat match goal with
           | |- context [if ?c then _ else _] => destruct c; cbn
           end;
    auto 10.
Qed.


(** What [handle_blink] never writes. *)
Lemma handle_blink_keeps (s : EyeTrackerCursor) (now left_ear right_ear : Q) :
  let s' := fst (fst (Control.handle_blink s now left_ear right_ear)) in
  screen_width s' = screen_width s /\
  screen_height s' = screen_height s /\
  calibration_data s' = calibration_data s /\
  calibration_points s' = calibration_points s /\
  model_x s' = model_x s /\ model_y s' = model_y s /\ scaler s' = scaler s /\
  blink_threshold s' = blink_threshold s /\
  blink_cooldown s' = blink_cooldown s /\
  long_blink_threshold s' = long_blink_threshold s /\
  smoothing_factor s' = smoothing_factor s /\
  prev_xy s' = prev_xy s /\
  blink_relative_mode s' = blink_relative_mode s /\
  blink_relative_threshold s' = blink_relative_threshold s.
Proof.
  cbv zeta. unfold Control.handle_blink, Control.detect_blink.
  destruct s as [f1 f2 f3 f4 f5 f6 f7 m f9 f10 f11 f12 start f14 f15 f16 rel
                   f18 f19 f20].
  destruct m, start as [start|], rel as [[|]|]; cbn;
    repeat match goal with
           | |- context [if ?c then _ else _] => destruct c; cbn
           end;
    repeat split.
Qed.

Lemma button_down_app (before : bool) (a b : list Actuation) :
  button_down before (a ++ b) = button_down (button_down before a) b.
Proof. apply fold_left_app. Qed.

(** X2. The speed constant follows the mode through every mode switch
    and every blink: a tracker whose [cursor_speed] is the constant of
    its mode keeps that through any sequence of [handle_blink] calls,
    [__init__] builds such a tracker and the key [m] always yields one.
    The key [s] does not: it enters scroll mode and leaves
    [cursor_speed] at the constant of the mode it came from. *)
Theorem speed_follows_mode_except_key_s :
  (forall width height now,
      cursor_speed (init width height now)
      = speed_of (mode (init width height now))) /\
  (forall s, cursor_speed (Run.key_m s) = speed_of (mode (Run.key_m s))) /\
  (forall s frames,
      cursor_speed s = speed_of (mode s) ->
      cursor_speed (after_frames s frames)
      = speed_of (mode (after_frames s frames))) /\
  (forall s,
      cursor_speed s = speed_of (mode s) -> mode s <> scroll ->
      mode (Run.key_s s) = scroll /\
      cursor_speed (Run.key_s s) = cursor_speed s /\
      cursor_speed (Run.key_s s) <> speed_of (mode (Run.key_s s))).
Proof.
  split; [reflexivity|]. split; [|split].
  - intros s. destruct (switch_mode_speed s) as (Hm & Hs).
    unfold Run.key_m. now rewrite Hs, Hm.
  - intros s frames. revert s.
    induction frames as [|[[now left_ear] right_ear] frames IH]; intros s Hs;
      [exact Hs|].
    cbn [after_frames]. apply IH.
    destruct (handle_blink_effect s now left_ear right_ear)
      as [(Hm & Hc & _)|[(Hdrag & Hm & Hc & _)|(Hm & Hc & _)]].
    + now rewrite Hm, Hc.
    + now rewrite Hm, Hc, Hs, Hdrag.
    + now rewrite Hm, Hc.
  - intros [f1 f2 f3 f4 f5 f6 f7 m f9 f10 f11 f12 f13 f14 f15 f16 f17 f18 f19
             f20] Hs Hm; cbn in *.
    repeat split. subst f16. destruct m; cbn; try discriminate.
    now contradiction Hm.
Qed.

Lemma speed_follows_mode_except_key_s_witness :
  let s := Run.key_m (Run.key_m (init 1920 1080 0)) in
  let frames := [(1, 0.1, 0.1); (2.5, 0.3, 0.3)]%Q in
  mode s = click /\
  mode (after_frames s frames) = drag /\
  cursor_speed (after_frames s frames) = 0.03%Q /\
  mode (Run.key_s s) = scroll /\
  cursor_speed (Run.key_s s) = 0.04%Q.
Proof.
  cbv zeta.
  destruct speed_follows_mode_except_key_s as (_ & Hkey & Hrun & Hs).
  set (s := Run.key_m (Run.key_m (init 1920 1080 0))).
  split; [reflexivity|]. split; [reflexivity|].
  split.
  - exact (Hrun s [(1, 0.1, 0.1); (2.5, 0.3, 0.3)]%Q (Hkey _)).
  - destruct (Hs s (Hkey _)) as (Hm & Hc & _); [discriminate|].
    split; [exact Hm | exact Hc].
Defined.

(** X3. The left mouse button is never down unless [self.dragging] is
    set: if that holds before a sequence of [handle_blink] calls it
    holds after them, so the release that follows the loop of [run]
    always leaves the button up. The flag does not follow the button
    the other way: a click outside drag mode releases the button and
    leaves [self.dragging] set. *)
Theorem button_down_only_while_dragging :
  forall s frames before,
    (before = true -> engaged s = true) ->
    let trace := blink_actuations s frames in
    let s' := after_frames s frames in
    (button_down before trace = true -> engaged s' = true) /\
    button_down before (trace ++ Run.release s') = false.
Proof.
  intros s frames before Hbefore. cbv zeta.
  assert (H : button_down before (blink_actuations s frames) = true ->
              engaged (after_frames s frames) = true).
  { revert s before Hbefore.
    induction frames as [|[[now left_ear] right_ear] frames IH];
      intros s before Hbefore; [exact Hbefore|].
    cbn [blink_actuations after_frames].
    pose proof (handle_blink_effect s now left_ear right_ear) as E.
    cbv zeta in E.
    destruct (Control.handle_blink s now left_ear right_ear)
      as [[s1 acts] event].
    cbn [fst snd] in *. rewrite button_down_app. apply IH.
    unfold engaged in *.
    destruct E as [(_ & _ & Hd & Ha)|[(_ & _ & _ & Hd & Ha)|(_ & _ & Hd & Ha)]];
      rewrite Hd.
    - destruct Ha as [->|[->| ->]]; cbn; [exact Hbefore | discriminate
                                        | exact Hbefore].
    - rewrite Ha. destruct (dragging s) as [[|]|]; cbn; auto; discriminate.
    - rewrite Ha. exact Hbefore. }
  split; [exact H|].
  rewrite button_down_app.
  destruct (button_down before (blink_actuations s frames)).
  - unfold Run.release. unfold engaged in H. specialize (H eq_refl).
    destruct (dragging (after_frames s frames)) as [[|]|];
      [reflexivity | discriminate H | discriminate H].
  - unfold Run.release.
    now destruct (dragging (after_frames s frames)) as [[|]|].
Qed.

(** In drag mode a short blink presses the button; a long blink then
    leaves drag mode, and a short blink in cursor mode clicks: the
    button is up and [self.dragging] is still set. *)
Lemma button_down_only_while_dragging_witness :
  let s := set_mode drag (init 1920 1080 0) in
  let frames := [(1, 0.1, 0.1); (1.1, 0.3, 0.3); (2, 0.1, 0.1);
                 (3.5, 0.3, 0.3); (4, 0.1, 0.1); (4.1, 0.3, 0.3)]%Q in
  blink_actuations s frames = [pyautogui_mouseDown; pyautogui_click] /\
  button_down false (blink_actuations s frames) = false /\
  engaged (after_frames s frames) = true /\
  button_down false
    (blink_actuations s frames ++ Run.release (after_frames s frames)) = false.
Proof.
  cbv zeta.
  destruct (@button_down_only_while_dragging
              (set_mode drag (init 1920 1080 0))
              [(1, 0.1, 0.1); (1.1, 0.3, 0.3); (2, 0.1, 0.1);
               (3.5, 0.3, 0.3); (4, 0.1, 0.1); (4.1, 0.3, 0.3)]%Q false)
    as [_ H2]; [discriminate|].
  split; [vm_compute; reflexivity|]. split; [vm_compute; reflexivity|].
  split; [vm_compute; reflexivity | exact H2].
Defined.

(** X4. Outside drag mode [handle_blink] neither presses nor releases
    the mouse button and leaves [self.dragging] as it is: a drag that is
    engaged when a long blink leaves drag mode stays engaged. *)
Theorem no_button_outside_drag_mode :
  forall s (now left_ear right_ear : Q),
    mode s <> drag ->
    let s' := fst (fst (Control.handle_blink s now left_ear right_ear)) in
    let acts := snd (fst (Control.handle_blink s now left_ear right_ear)) in
    dragging s' = dragging s /\
    ~ In pyautogui_mouseDown acts /\ ~ In pyautogui_mouseUp acts.
Proof.
  intros s now left_ear right_ear Hm. cbv zeta.
  destruct (handle_blink_effect s now left_ear right_ear)
    as [(_ & _ & Hd & Ha)|[(Hdrag & _)|(_ & _ & Hd & Ha)]].
  - split; [exact Hd|].
    destruct Ha as [->|[->| ->]]; split; cbn; intuition discriminate.
  - contradiction.
  - rewrite Ha. split; [exact Hd|]. split; cbn; tauto.
Qed.

(** A drag is engaged, a long blink switches to cursor mode, a short
    blink clicks: the button is still down. *)
Lemma no_button_outside_drag_mode_witness :
  let s := set_mode drag (init 1920 1080 0) in
  let frames := [(1, 0.1, 0.1); (1.1, 0.3, 0.3);
                 (2, 0.1, 0.1); (3.5, 0.3, 0.3)]%Q in
  let s1 := after_frames s frames in
  mode s1 = cursor /\ dragging s1 = Some true /\
  dragging (fst (fst (Control.handle_blink
                        (set_blink_start_time (Some 4) s1) 4.1 0.3 0.3)))
  = Some true /\
  snd (fst (Control.handle_blink
              (set_blink_start_time (Some 4) s1) 4.1 0.3 0.3))
  = [pyautogui_click].
Proof.
  cbv zeta.
  set (s1 := after_frames (set_mode drag (init 1920 1080 0)) _).
  destruct (@no_button_outside_drag_mode
              (set_blink_start_time (Some 4%Q) s1) 4.1 0.3 0.3)%Q as [Hd _].
  { vm_compute. discriminate. }
  split; [reflexivity|]. split; [reflexivity|].
  split; [rewrite Hd; reflexivity | reflexivity].
Defined.

End ModeFacts.

(* ================================================================== *)
(** * Smoothing, scrolling and one iteration of the loop *)

Section FrameFacts.

Local Open Scope Q_scope.

(** X5. With [smoothing_factor] equal to 0 every call of
    [smooth_movement], the first or a later one, returns the raw
    prediction. *)
Theorem no_smoothing_returns_raw :
  forall s (x_pred y_pred : Q),
    smoothing_factor s == 0 ->
    fst (snd (Control.smooth_movement s x_pred y_pred)) == x_pred /\
    snd (snd (Control.smooth_movement s x_pred y_pred)) == y_pred.
Proof.
  intros s x_pred y_pred Hsf. unfold Control.smooth_movement.
  destruct (prev_xy s) as [[prev_x prev_y]|]; cbn [fst snd].
  - unfold Control.adjusted_smoothing. rewrite Hsf. split; ring.
  - split; reflexivity.
Qed.

Lemma no_smoothing_returns_raw_witness :
  let s := set_prev_xy (Some (100, 100))
             (mkTracker 1920 1080 [] [] None None scaler_new cursor
                0.2 0 0.05 1.0 None 0 None 0.05 None 0 None None) in
  fst (snd (Control.smooth_movement s 960 540)) == 960 /\
  snd (snd (Control.smooth_movement s 960 540)) == 540.
Proof.
  cbv zeta.
  apply (@no_smoothing_returns_raw
           (set_prev_xy (Some (100, 100))
              (mkTracker 1920 1080 [] [] None None scaler_new cursor
                 0.2 0 0.05 1.0 None 0 None 0.05 None 0 None None))
           960 540).
  reflexivity.
Defined.

Lemma clamp_range (v : Q) (n : Z) :
  (1 <= n)%Z ->
  0 <= Qmax 0 (Qmin v (inject_Z (n - 1))) <= inject_Z (n - 1).
Proof.
  intros Hn.
  assert (H0 : 0 <= inject_Z (n - 1)) by (rewrite <- (Zle_Qle 0); lia).
  split; [apply Q.le_max_l|].
  apply Q.max_lub; [exact H0 | apply Q.le_min_r].
Qed.

Lemma smooth_movement_screen (s : EyeTrackerCursor) (x_pred y_pred : Q) :
  screen_width (fst (Control.smooth_movement s x_pred y_pred)) = screen_width s /\
  screen_height (fst (Control.smooth_movement s x_pred y_pred)) = screen_height s.
Proof.
  unfold Control.smooth_movement.
  destruct (prev_xy s) as [[px py]|]; now destruct s.
Qed.

(** X7. Whatever the regressors predict, the position that one
    iteration of [run] hands to [pyautogui.moveTo] lies on the screen,
    between 0 and the last pixel on each axis. *)
Theorem frame_moves_on_screen :
  forall s (current_time x_pred y_pred left_ear right_ear : Q),
    (1 <= screen_width s)%Z -> (1 <= screen_height s)%Z ->
    let r := snd (Run.frame s current_time x_pred y_pred left_ear right_ear) in
    0 <= fst (moved_to r) <= inject_Z (screen_width s - 1) /\
    0 <= snd (moved_to r) <= inject_Z (screen_height s - 1).
Proof.
  intros s current_time x_pred y_pred left_ear right_ear HW HH. cbv zeta.
  unfold Run.frame.
  destruct (smooth_movement_screen s x_pred y_pred) as [Hw Hh].
  destruct (Control.smooth_movement s x_pred y_pred) as [s1 [x_smooth y_smooth]].
  cbn [fst] in Hw, Hh. rewrite Hw, Hh.
  destruct (Control.handle_blink s1 current_time left_ear right_ear)
    as [[s2 acts] event].
  destruct (Control.handle_scroll s2 _) as [sacts amount]. cbn [snd fst moved_to].
  split; now apply clamp_range.
Qed.

Lemma frame_moves_on_screen_witness :
  let s := init 1920 1080 0 in
  let r := snd (Run.frame s 1 (-250) 5000 0.3 0.3) in
  moved_to r = (0, 1079) /\
  0 <= fst (moved_to r) <= inject_Z (screen_width s - 1) /\
  0 <= snd (moved_to r) <= inject_Z (screen_height s - 1).
Proof.
  cbv zeta. split; [reflexivity|].
  apply (@frame_moves_on_screen (init 1920 1080 0) 1 (-250) 5000 0.3 0.3);
    vm_compute; discriminate.
Defined.

End FrameFacts.

Section ScrollMoreFacts.

Local Open Scope Q_scope.

Lemma handle_scroll_other_modes (s : EyeTrackerCursor) (y_position : Q) :
  mode s <> scroll -> Control.handle_scroll s y_position = ([], 0%Z).
Proof.
  unfold Control.handle_scroll. destruct (mode s); trivial. now intros [].
Qed.

Lemma normalized_range (s : EyeTrackerCursor) (y_position : Q) :
  (0 < screen_height s)%Z ->
  0 <= y_position <= inject_Z (screen_height s) ->
  0 <= normalized s y_position <= 1.
Proof.
  intros HH [Hlo Hhi]. pose proof (inject_Z_pos HH) as HQ. unfold normalized.
  split; [apply Qle_shift_div_l | apply Qle_shift_div_r]; lra.
Qed.

Lemma handle_scroll_bounded (s : EyeTrackerCursor) (y_position : Q) :
  (0 < screen_height s)%Z ->
  0 <= y_position <= inject_Z (screen_height s) ->
  (-3 <= snd (Control.handle_scroll s y_position) <= 3)%Z.
Proof.
  intros HH Hy.
  destruct (mode s) eqn:Hm;
    try (rewrite handle_scroll_other_modes by congruence; cbn; lia).
  pose proof (@normalized_range s y_position HH Hy) as [Hlo Hhi].
  destruct (Qlt_le_dec (normalized s y_position) 0.35) as [Ha|Ha].
  - rewrite (@handle_scroll_above s Hm y_position Ha). cbn [snd].
    pose proof (@Qfloor_nonneg (10 * (0.35 - normalized s y_position))) as H0.
    pose proof (Qfloor_resp_le (10 * (0.35 - normalized s y_position)) 3.5) as H3.
    change (Qfloor 3.5) with 3%Z in H3.
    lapply H0; [|lra]. lapply H3; [|lra]. lia.
  - destruct (Qlt_le_dec 0.65 (normalized s y_position)) as [Hb|Hb].
    + rewrite (@handle_scroll_below s Hm y_position Hb). cbn [snd].
      pose proof (@Qfloor_nonneg (10 * (normalized s y_position - 0.65))) as H0.
      pose proof (Qfloor_resp_le (10 * (normalized s y_position - 0.65)) 3.5) as H3.
      change (Qfloor 3.5) with 3%Z in H3.
      lapply H0; [|lra]. lapply H3; [|lra]. lia.
    + rewrite (@handle_scroll_inside s Hm y_position (conj Ha Hb)). cbn. lia.
Qed.

(** X8. One iteration of [run] scrolls only when the tracker is in
    scroll mode once the blink of that iteration is handled, and never
    by more than three steps either way, whatever is predicted. *)
Theorem frame_scroll_is_gated_and_bounded :
  forall s (current_time x_pred y_pred left_ear right_ear : Q),
    (1 <= screen_height s)%Z ->
    let s' := fst (Run.frame s current_time x_pred y_pred left_ear right_ear) in
    let r := snd (Run.frame s current_time x_pred y_pred left_ear right_ear) in
    (-3 <= scroll_amount r <= 3)%Z /\
    (mode s' <> scroll ->
     scroll_amount r = 0%Z /\
     forall amount, ~ In (pyautogui_scroll amount) (actuations r)).
Proof.
  intros s current_time x_pred y_pred left_ear right_ear HH. cbv zeta.
  unfold Run.frame.
  destruct (smooth_movement_screen s x_pred y_pred) as [_ Hh].
  destruct (Control.smooth_movement s x_pred y_pred) as [s1 [x_smooth y_smooth]].
  cbn [fst] in Hh.
  pose proof (handle_blink_keeps s1 current_time left_ear right_ear) as K.
  pose proof (handle_blink_effect s1 current_time left_ear right_ear) as E.
  cbv zeta in K, E. destruct K as (_ & Hh2 & _).
  destruct (Control.handle_blink s1 current_time left_ear right_ear)
    as [[s2 acts] event].
  cbn [fst snd] in Hh2, E.
  set (y := Qmax 0 (Qmin y_smooth (inject_Z (screen_height s1 - 1)))).
  assert (Hy : 0 <= y <= inject_Z (screen_height s1 - 1))
    by (apply clamp_range; lia).
  assert (Hb : (-3 <= snd (Control.handle_scroll s2 y) <= 3)%Z).
  { apply handle_scroll_bounded; rewrite Hh2; [lia|].
    split; [apply Hy|]. eapply Qle_trans; [apply Hy|].
    rewrite <- Zle_Qle. lia. }
  pose proof (handle_scroll_other_modes s2 y) as Ho.
  destruct (Control.handle_scroll s2 y) as [sacts amount].
  cbn [fst snd scroll_amount actuations] in *.
  split; [exact Hb|]. intros Hm. specialize (Ho Hm). injection Ho as -> ->.
  split; [reflexivity|]. intros amount Hin. rewrite app_nil_r in Hin.
  destruct E as [(_ & _ & _ & Ha)|[(_ & _ & _ & _ & Ha)|(_ & _ & _ & Ha)]].
  - destruct Ha as [->|[->| ->]]; cbn in Hin; intuition discriminate.
  - rewrite Ha in Hin. destruct (negb (engaged s1)); cbn in Hin;
      intuition discriminate.
  - rewrite Ha in Hin. exact Hin.
Qed.

(** A long blink in cursor mode switches to scroll mode, and the same
    iteration scrolls. *)
Lemma frame_scroll_is_gated_and_bounded_witness :
  let s := set_blink_start_time (Some 1) (init 1920 1080 0) in
  let r := snd (Run.frame s 2.5 960 54 0.3 0.3) in
  mode (fst (Run.frame s 2.5 960 54 0.3 0.3)) = scroll /\
  scroll_amount r = 3%Z /\
  (-3 <= scroll_amount r <= 3)%Z.
Proof.
  cbv zeta. split; [reflexivity|]. split; [reflexivity|].
  apply (@frame_scroll_is_gated_and_bounded
           (set_blink_start_time (Some 1%Q) (init 1920 1080 0))
           2.5 960 54 0.3 0.3).
  vm_compute. discriminate.
Defined.

(** X9. With the arithmetic of the interpreter, scrolling is
    antisymmetric about mid-height only up to one step: on every
    whole-pixel row of a display of one of the heights of
    [display_heights], the amounts of a row and of the row mirrored in
    the middle of the screen add up to -1, 0 or 1. *)
Theorem scroll_mirror_within_one_step :
  forall s (y : Z),
    mode s = scroll ->
    In (screen_height s) display_heights ->
    (0 <= y <= screen_height s)%Z ->
    exists amount mirrored,
      scroll_amount_at s y = Some amount /\
      scroll_amount_at s (screen_height s - y) = Some mirrored /\
      (-1 <= amount + mirrored <= 1)%Z.
Proof.
  intros s y Hmode Hh Hy.
  destruct (@scroll_row_facts s y Hmode Hh Hy)
    as (acts & amount & _ & mirrored & E & _ & Em & _ & Hsum & _).
  exists amount, mirrored. unfold scroll_amount_at at 1. rewrite E.
  split; [reflexivity|]. split; [exact Em | exact Hsum].
Qed.

(** On 1080 rows, row 54 scrolls by 3 and the mirrored row 1026 by -2:
    the two amounts are not opposite. *)
Lemma scroll_mirror_within_one_step_witness :
  let s := set_mode scroll (init 1920 1080 0) in
  scroll_amount_at s 54 = Some 3%Z /\
  scroll_amount_at s 1026 = Some (-2)%Z /\
  exists amount mirrored,
    scroll_amount_at s 54 = Some amount /\
    scroll_amount_at s (screen_height s - 54) = Some mirrored /\
    (-1 <= amount + mirrored <= 1)%Z.
Proof.
  cbv zeta.
  split; [vm_compute; reflexivity|]. split; [vm_compute; reflexivity|].
  apply (@scroll_mirror_within_one_step (set_mode scroll (init 1920 1080 0)) 54).
  - reflexivity.
  - vm_compute. tauto.
  - cbn. lia.
Defined.

End ScrollMoreFacts.

(* ================================================================== *)
(** * Calibration: the order of the targets and the growth of the set *)

Section CalibrationMoreFacts.

Import Calibration.

Lemma In_firstn {A} (x : A) (n : nat) (l : list A) :
  In x (firstn n l) -> In x l.
Proof.
  intros H. rewrite <- (firstn_skipn n l). apply in_or_app. now left.
Qed.

Lemma Forall2_In_r {A B} (R : A -> B -> Prop) (l : list A) (l' : list B) (y : B) :
  Forall2 R l l' -> In y l' -> exists x, In x l /\ R x y.
Proof.
  induction 1 as [|a b l l' Hab _ IH]; intros Hin; [destruct Hin|].
  destruct Hin as [<-|Hin].
  - exists a. split; [now left | exact Hab].
  - destruct (IH Hin) as (x & Hx & HR). exists x. split; [now right | exact HR].
Qed.

(** The targets are the first pairs of the grid, in the order of the
    loops, as many as [num_points] allows. *)
Lemma append_points_prefix (pairs : list (float * float)) (num_points : Z) :
  forall points result,
    append_points pairs num_points points = Some result ->
    exists added,
      result = points ++ added /\
      Forall2 int_pair (firstn (length added) pairs) added /\
      Z.of_nat (length added)
      = Z.max 0 (Z.min (num_points - Z.of_nat (length points))
                       (Z.of_nat (length pairs))).
Proof.
  induction pairs as [|[x y] pairs IH]; intros points result; cbn [append_points].
  - intros [= <-]. exists []. rewrite app_nil_r. repeat split; [constructor|].
    cbn. lia.
  - destruct (Z.of_nat (length points) <? num_points)%Z eqn:E.
    + apply Z.ltb_lt in E. unfold Py.bind.
      destruct (Py.int x) as [xi|] eqn:Ex; [|discriminate].
      destruct (Py.int y) as [yi|] eqn:Ey; [|discriminate].
      intros H. destruct (IH _ _ H) as (added & -> & HF & Hlen).
      exists ((xi, yi) :: added). rewrite <- app_assoc. split; [reflexivity|].
      split.
      * cbn [length firstn]. constructor; [split; assumption | exact HF].
      * rewrite length_app in Hlen. cbn [length] in *. lia.
    + apply Z.ltb_ge in E. intros H.
      destruct (IH _ _ H) as (added & -> & HF & Hlen).
      assert (added = []) by (destruct added; [reflexivity | cbn in Hlen; lia]).
      subst added. exists []. repeat split; [constructor|]. cbn [length]. lia.
Qed.

Lemma grid_length (s : EyeTrackerCursor) : length (grid s) = 100%nat.
Proof. reflexivity. Qed.

Lemma grid_first_column (s : EyeTrackerCursor) :
  firstn 10 (grid s)
  = map (fun y => (Py.float (screen_width s) * 0.1, y)%float) (y_points s).
Proof. reflexivity. Qed.

Lemma targets_count s num_points points :
  make_calibration_points s num_points = Some points ->
  Z.of_nat (length points) = Z.max 0 (Z.min num_points 100).
Proof.
  intros H. unfold make_calibration_points in H.
  destruct (append_points_prefix _ _ _ H) as (added & -> & _ & Hlen).
  cbn [app length] in *. rewrite grid_length in Hlen. lia.
Qed.

(** X10. [calibrate] generates [num_points] targets, none for a
    negative count and at most the 100 of the grid, and they are the
    first pairs of the grid taken column by column: with ten targets
    or fewer, as in the recalibration of [run] with nine, every target
    has the same [x], a tenth of the screen width. *)
Theorem targets_fill_the_grid_by_columns :
  forall s num_points points,
    make_calibration_points s num_points = Some points ->
    Z.of_nat (length points) = Z.max 0 (Z.min num_points 100) /\
    Forall2 int_pair (firstn (length points) (grid s)) points /\
    ((num_points <= 10)%Z ->
     forall target, In target points ->
       Py.int (Py.float (screen_width s) * 0.1)%float = Some (fst target)).
Proof.
  intros s num_points points H. unfold make_calibration_points in H.
  destruct (append_points_prefix _ _ _ H) as (added & -> & HF & Hlen).
  cbn [app length] in *. rewrite grid_length in Hlen.
  split; [lia|]. split; [exact HF|].
  intros Hn target Hin.
  assert (Hk : (length added <= 10)%nat) by lia.
  rewrite <- (Nat.min_l _ _ Hk), <- firstn_firstn, grid_first_column in HF.
  destruct (@Forall2_In_r _ _ _ _ _ _ HF Hin) as (pair & Hpair & Hint).
  apply In_firstn in Hpair. apply in_map_iff in Hpair.
  destruct Hpair as (y & <- & _). exact (proj1 Hint).
Qed.

(** The sixteen targets of a full recalibration on a 1920 x 1080
    screen, and the nine of a recalibration, all at [x = 192]. *)
Lemma targets_fill_the_grid_by_columns_witness :
  let s := init 1920 1080 0 in
  (exists points,
      make_calibration_points s 16 = Some points /\ length points = 16%nat) /\
  (exists points,
      make_calibration_points s 9 = Some points /\
      forall target, In target points -> fst target = 192%Z).
Proof.
  cbv zeta. split.
  - destruct (make_calibration_points (init 1920 1080 0) 16) as [points|] eqn:E;
      [|vm_compute in E; discriminate E].
    exists points. split; [reflexivity|].
    destruct (targets_fill_the_grid_by_columns _ _ E) as (Hlen & _). lia.
  - destruct (make_calibration_points (init 1920 1080 0) 9) as [points|] eqn:E;
      [|vm_compute in E; discriminate E].
    exists points. split; [reflexivity|].
    destruct (targets_fill_the_grid_by_columns _ _ E) as (_ & _ & Hcol).
    intros target Hin. specialize (Hcol ltac:(lia) target Hin).
    vm_compute in Hcol. injection Hcol as Hc. symmetry. exact Hc.
Defined.

Lemma filter_point_shape (point_data : list FeatureVector) (xy : Z * Z) added :
  filter_point point_data xy = Some added ->
  added = [] \/ exists avg_features, added = [(avg_features, xy)].
Proof.
  unfold filter_point, Py.bind.
  destruct (10 <? length point_data)%nat; [|intros [= <-]; now left].
  destruct (Py.int _); [|discriminate].
  destruct (Py.mapM _ _); [|discriminate].
  intros [= <-]. right. eauto.
Qed.

Variable arctan2 : float -> float -> float.

(** The loop over the targets appends to the calibration set, at most
    one sample per target and each at the coordinate of a target, and
    writes nothing else. *)
Lemma collect_grows (points : list (Z * Z)) :
  forall point_idx captures s s',
    collect arctan2 points point_idx captures s = Some s' ->
    exists added,
      s' = set_calibration_data (calibration_data s ++ added) s /\
      (length added <= length points)%nat /\
      incl (map snd added) points.
Proof.
  induction points as [|xy points IH]; intros point_idx captures s s'; simpl.
  - intros [= <-]. exists []. rewrite app_nil_r.
    split; [now destruct s|]. split; [cbn; lia | intros x []].
  - unfold Py.bind.
    destruct (sample arctan2 (captures point_idx) []) as [pd|]; [|discriminate].
    destruct (filter_point pd xy) as [added|] eqn:Ef; [|discriminate].
    intros H. destruct (IH _ _ _ _ H) as (more & -> & Hlen & Hincl).
    exists (added ++ more). split; [|split].
    + destruct s; cbn. now rewrite app_assoc.
    + rewrite length_app.
      destruct (filter_point_shape _ _ Ef) as [->|[avg ->]]; cbn; lia.
    + rewrite map_app. apply incl_app.
      * destruct (filter_point_shape _ _ Ef) as [->|[avg ->]]; cbn;
          [intros x [] | intros x [<-|[]]; now left].
      * now apply incl_tl.
Qed.

(** [calibrate] with a working camera, in one equation. *)
Lemma calibrate_grows s num_points captures s' result :
  calibrate arctan2 s true num_points captures = Some (s', result) ->
  exists points added,
    make_calibration_points s num_points = Some points /\
    (length added <= length points)%nat /\
    incl (map snd added) points /\
    result = (6 <=? length (calibration_data s ++ added))%nat /\
    (s', result)
    = train (set_calibration_data (calibration_data s ++ added)
               (set_calibration_points points s)).
Proof.
  unfold calibrate. cbn [negb]. unfold Py.bind.
  destruct (make_calibration_points s num_points) as [points|]; [|discriminate].
  destruct (collect arctan2 points 0 captures (set_calibration_points points s))
    as [s2|] eqn:Ec; [|discriminate].
  destruct (collect_grows _ _ _ _ Ec) as (added & -> & Hlen & Hincl).
  intros [= H]. exists points, added.
  assert (Hd : calibration_data (set_calibration_points points s)
               = calibration_data s) by now destruct s.
  rewrite Hd in *. repeat split; trivial.
  - unfold train in H.
    assert (Hd' : calibration_data
                    (set_calibration_data (calibration_data s ++ added)
                       (set_calibration_points points s))
                  = calibration_data s ++ added) by now destruct s.
    rewrite Hd' in H. now destruct (6 <=? _)%nat; injection H as _ <-.
  - now rewrite H.
Qed.

Lemma set_models_fields mx my sc (s : EyeTrackerCursor) :
  calibration_data (set_models mx my sc s) = calibration_data s /\
  calibration_points (set_models mx my sc s) = calibration_points s /\
  model_x (set_models mx my sc s) = mx /\
  model_y (set_models mx my sc s) = my /\
  scaler (set_models mx my sc s) = sc.
Proof. now destruct s. Qed.

(** What each target contributes, in the order of the targets. *)
Lemma collect_per_target (points : list (Z * Z)) :
  forall point_idx captures s s',
    collect arctan2 points point_idx captures s = Some s' ->
    exists per_target,
      calibration_data s' = calibration_data s ++ concat per_target /\
      Forall2 (fun target samples =>
                 samples = [] \/
                 exists features, samples = [(features, target)])
              points per_target.
Proof.
  induction points as [|xy points IH]; intros point_idx captures s s'; simpl.
  - intros [= <-]. exists []. cbn. rewrite app_nil_r. split; constructor.
  - unfold Py.bind.
    destruct (sample arctan2 (captures point_idx) []) as [pd|]; [|discriminate].
    destruct (filter_point pd xy) as [added|] eqn:Ef; [|discriminate].
    intros H. destruct (IH _ _ _ _ H) as (more & Hd & HF).
    exists (added :: more). split.
    + rewrite Hd. cbn [concat]. rewrite app_assoc. f_equal. now destruct s.
    + constructor; [exact (filter_point_shape _ _ Ef) | exact HF].
Qed.

(** X11. [calibrate] never drops a sample: with a working camera it
    appends to the calibration set it finds, target by target in the
    order of the targets it stores, nothing or one sample at the
    coordinate of that target, and returns whether the set then holds
    at least six samples. When it returns [True] the scaler and both
    regressors are the ones fitted on the whole set, the samples held
    before the call included; when it returns [False] they are those
    held before the call. Once six samples are held, every later call
    returns [True], even when it collects nothing. *)
Theorem calibrate_appends_to_the_set :
  forall s num_points captures s' result,
    calibrate arctan2 s true num_points captures = Some (s', result) ->
    exists per_target,
      calibration_data s' = calibration_data s ++ concat per_target /\
      Forall2 (fun target samples =>
                 samples = [] \/
                 exists features, samples = [(features, target)])
              (calibration_points s') per_target /\
      Z.of_nat (length (calibration_points s'))
      = Z.max 0 (Z.min num_points 100) /\
      result = (6 <=? length (calibration_data s'))%nat /\
      (result = true ->
       let X := map fst (calibration_data s') in
       scaler s' = scaler_fit X /\
       model_x s'
       = Some (mkRegressor 400 18 (scaler_fit X, X)
                 (map (fun data => fst (snd data)) (calibration_data s'))) /\
       model_y s'
       = Some (mkRegressor 400 18 (scaler_fit X, X)
                 (map (fun data => snd (snd data)) (calibration_data s')))) /\
      (result = false ->
       model_x s' = model_x s /\ model_y s' = model_y s /\
       scaler s' = scaler s) /\
      ((6 <= length (calibration_data s))%nat -> result = true).
Proof.
  intros s num_points captures s' result. unfold calibrate. cbn [negb].
  unfold Py.bind.
  destruct (make_calibration_points s num_points) as [points|] eqn:Hp;
    [|discriminate].
  pose proof (targets_count _ _ Hp) as Hcount. clear Hp.
  destruct (collect arctan2 points 0 captures (set_calibration_points points s))
    as [s2|] eqn:Ec; [|discriminate].
  destruct (collect_per_target _ _ _ _ Ec) as (per_target & Hd & HF).
  destruct (collect_grows _ _ _ _ Ec) as (added & Hs2 & _ & _).
  clear Ec.
  assert (Hd0 : calibration_data (set_calibration_points points s)
                = calibration_data s) by now destruct s.
  rewrite Hd0 in Hd, Hs2. clear Hd0.
  assert (Hadded : calibration_data s2 = calibration_data s ++ added)
    by (rewrite Hs2; now destruct s).
  assert (Hpoints : calibration_points s2 = points)
    by (rewrite Hs2; now destruct s).
  assert (Hmodels : model_x s2 = model_x s /\ model_y s2 = model_y s /\
                    scaler s2 = scaler s)
    by (rewrite Hs2; now destruct s).
  clear Hs2. unfold train. cbv zeta.
  destruct (6 <=? length (calibration_data s2))%nat eqn:E6;
    intros [= <- <-]; exists per_target.
  - match goal with
    | |- context [set_models ?mx ?my ?sc s2] =>
        destruct (set_models_fields mx my sc s2) as (K1 & K2 & K3 & K4 & K5)
    end.
    rewrite K1, K2, K3, K4, K5, Hpoints.
    split; [exact Hd|]. split; [exact HF|]. split; [exact Hcount|].
    split; [now rewrite E6|].
    split; [intros _; repeat split|].
    split; [discriminate | reflexivity].
  - rewrite Hpoints.
    split; [exact Hd|]. split; [exact HF|]. split; [exact Hcount|].
    split; [now rewrite E6|].
    split; [discriminate|]. split; [intros _; exact Hmodels|].
    intros H6. apply Nat.leb_gt in E6. rewrite Hadded, length_app in E6.
    unfold CalibrationSample, FeatureVector in *. lia.
Qed.

(** X12. A full recalibration (key [f]) starts from an empty set: the
    set it leaves holds at most the samples of its sixteen targets.
    With six or more of them the models are refitted and the three
    model files are written; with fewer the disk and the models are as
    before, while the samples held before the key are gone. *)
Theorem full_recalibration_starts_empty :
  forall p captures disk p' disk',
    Run.key_f arctan2 p true captures disk = Some (p', disk') ->
    let t' := tracker p' in
    let prefix := Persistence.prefix_of p None in
    (length (calibration_data t') <= 16)%nat /\
    incl (map snd (calibration_data t')) (calibration_points t') /\
    ((6 <= length (calibration_data t'))%nat ->
     exists mx my,
       model_x t' = Some mx /\ model_y t' = Some my /\
       disk' = (prefix ++ "_scaler.pkl", pickled_scaler (scaler t'))%string
               :: (prefix ++ "_y.pkl", pickled_regressor my)%string
               :: (prefix ++ "_x.pkl", pickled_regressor mx)%string :: disk) /\
    ((length (calibration_data t') < 6)%nat ->
     disk' = disk /\
     model_x t' = model_x (tracker p) /\ model_y t' = model_y (tracker p) /\
     scaler t' = scaler (tracker p)).
Proof.
  intros p captures disk p' disk'. unfold Run.key_f, Py.bind.
  set (emptied := set_calibration_points []
                    (set_calibration_data [] (tracker p))).
  destruct (calibrate arctan2 emptied true 16 captures) as [[s' result]|] eqn:E;
    [|discriminate].
  destruct (calibrate_grows _ _ _ E)
    as (points & added & Hp & Hlen & Hincl & Hres & Htrain).
  pose proof (targets_count _ _ Hp) as Hcount.
  assert (He : calibration_data emptied = []) by (subst emptied; now destruct (tracker p)).
  rewrite He in *. cbn [app] in *.
  unfold train in Htrain. cbv zeta in Htrain.
  assert (Hd' : calibration_data
                  (set_calibration_data added
                     (set_calibration_points points emptied)) = added)
    by now destruct emptied.
  rewrite Hd' in Htrain. clear Hd'. rewrite <- Hres in Htrain.
  cbn [fst snd].
  destruct result; injection Htrain as ->; intros [= <- <-]; cbv zeta;
    cbn [tracker set_tracker].
  - symmetry in Hres. apply Nat.leb_le in Hres.
    assert (Hf : forall vx vy vs,
               calibration_data
                 (set_models vx vy vs
                    (set_calibration_data added
                       (set_calibration_points points emptied))) = added /\
               calibration_points
                 (set_models vx vy vs
                    (set_calibration_data added
                       (set_calibration_points points emptied))) = points)
      by (intros; now destruct emptied).
    destruct (Hf (Some (mkRegressor 400 18
                          (scaler_fit (map fst added), map fst added)
                          (map (fun data => fst (snd data)) added)))
                 (Some (mkRegressor 400 18
                          (scaler_fit (map fst added), map fst added)
                          (map (fun data => snd (snd data)) added)))
                 (scaler_fit (map fst added))) as [-> ->].
    split; [unfold CalibrationSample, FeatureVector in *; lia|].
    split; [exact Hincl|]. split.
    + intros _. unfold Persistence.save_models. cbn [tracker set_tracker].
      destruct emptied; cbn. eauto.
    + intros Hlt. unfold CalibrationSample, FeatureVector in *. lia.
  - symmetry in Hres. apply Nat.leb_gt in Hres.
    assert (Hf : calibration_data
                   (set_calibration_data added
                      (set_calibration_points points emptied)) = added /\
                 calibration_points
                   (set_calibration_data added
                      (set_calibration_points points emptied)) = points)
      by now destruct emptied.
    destruct Hf as [-> ->].
    split; [unfold CalibrationSample, FeatureVector in *; lia|].
    split; [exact Hincl|]. split.
    + intros H6. unfold CalibrationSample, FeatureVector in *. lia.
    + intros _. split; [reflexivity|].
      subst emptied. now destruct (tracker p).
Qed.
End CalibrationMoreFacts.

(** Six samples are held and the camera delivers nothing: the
    recalibration collects no sample, still returns [True], and fits
    the models on the six samples it found. *)
Lemma calibrate_appends_to_the_set_witness :
  let held := repeat (repeat 0.5%float 21, (0, 0)%Z) 6 in
  let s := set_calibration_data held (init 1920 1080 0) in
  exists s',
    Calibration.calibrate arctan2_of_frames s true 9 (fun _ => []) = Some (s', true) /\
    calibration_data s' = held /\
    model_x s'
    = Some (mkRegressor 400 18 (scaler_fit (map fst held), map fst held)
              (map (fun data => fst (snd data)) held)).
Proof.
  cbv zeta.
  set (s := set_calibration_data _ (init 1920 1080 0)).
  destruct (Calibration.calibrate arctan2_of_frames s true 9 (fun _ => []))
    as [[s' result]|] eqn:E; [|vm_compute in E; discriminate E].
  destruct (@calibrate_appends_to_the_set arctan2_of_frames s 9 (fun _ => [])
              s' result E) as (per_target & _ & _ & _ & _ & Hfit & _ & H6).
  assert (Hr : result = true) by (apply H6; cbn; lia). subst result.
  assert (Hd : calibration_data s'
               = repeat (repeat 0.5%float 21, (0, 0)%Z) 6).
  { vm_compute in E. injection E as <-. reflexivity. }
  destruct (Hfit eq_refl) as (_ & Hx & _). rewrite Hd in Hx.
  exists s'. split; [reflexivity|]. split; [exact Hd | exact Hx].
Defined.


(** A full recalibration whose camera delivers nothing, on a tracker
    that holds fitted models and seven samples: the models stay, the
    samples are gone, nothing is written. *)
Lemma full_recalibration_starts_empty_witness :
  let held := repeat (repeat 0.5%float 21, (0, 0)%Z) 7 in
  let old := mkRegressor 400 18 (scaler_fit [], []) [] in
  let t := set_models (Some old) (Some old) (scaler_fit [])
             (set_calibration_data held (init 1920 1080 0)) in
  let p := mkProfile t None "/home/user/PATHTOCALIBRATIONDATA" in
  exists p',
    Run.key_f arctan2_of_frames p true (fun _ => []) [] = Some (p', []) /\
    calibration_data (tracker p') = [] /\
    model_x (tracker p') = Some old.
Proof.
  cbv zeta.
  set (p := mkProfile _ None _).
  destruct (Run.key_f arctan2_of_frames p true (fun _ => []) [])
    as [[p' disk']|] eqn:E; [|vm_compute in E; discriminate E].
  destruct (@full_recalibration_starts_empty arctan2_of_frames p (fun _ => [])
              [] p' disk' E) as (_ & _ & _ & Hfew).
  assert (Hd : calibration_data (tracker p') = []).
  { vm_compute in E. injection E as <- _. reflexivity. }
  destruct Hfew as (-> & Hx & _); [rewrite Hd; cbn; lia|].
  exists p'. split; [reflexivity|]. split; [exact Hd|]. rewrite Hx. reflexivity.
Defined.

(* ================================================================== *)
(** * Feature extraction: accepted frames and the layout of the vector *)

Section ExtractionMoreFacts.

Import FeatureExtractor.

Variable arctan2 : float -> float -> float.

Lemma contour_in_range landmarks idxs rows :
  contour landmarks idxs = Some rows ->
  Forall (fun i => (i < length landmarks)%nat) idxs.
Proof.
  unfold contour. revert rows.
  induction idxs as [|i idxs IH]; intros rows; cbn [Py.mapM]; [constructor|].
  unfold xy at 1. unfold Py.bind.
  destruct (nth_error landmarks i) eqn:E; [|discriminate].
  destruct (Py.mapM (xy landmarks) idxs) as [rest|]; [|discriminate].
  intros _. constructor; [|now apply (IH rest)].
  apply nth_error_Some. now rewrite E.
Qed.

Lemma measure_needs_the_iris landmarks :
  (length landmarks < 478)%nat -> measure arctan2 landmarks = None.
Proof.
  intros Hshort. unfold measure, Py.bind.
  destruct (contour landmarks LEFT_EYE); [|reflexivity].
  destruct (contour landmarks RIGHT_EYE); [|reflexivity].
  destruct (contour landmarks LEFT_IRIS) as [rows|] eqn:E; [|reflexivity].
  apply contour_in_range in E. unfold LEFT_IRIS in E.
  repeat match goal with H : Forall _ (_ :: _) |- _ => inversion_clear H end.
  lia.
Qed.

(** X13. [extract_eye_features] accepts a frame exactly when it has the
    478 landmarks of the refined mesh; a shorter frame, such as the 468
    landmarks of a mesh without iris refinement, raises. *)
Theorem extraction_needs_refined_mesh :
  forall landmarks,
    extract_eye_features arctan2 landmarks = None
    <-> (length landmarks < 478)%nat.
Proof.
  intros landmarks. split.
  - intros Hnone.
    destruct (Nat.lt_ge_cases (length landmarks) 478) as [|Hlong]; [assumption|].
    destruct (extract_eye_features_total arctan2 landmarks Hlong)
      as (features & Hf & _).
    rewrite Hf in Hnone. discriminate.
  - intros Hshort. unfold extract_eye_features.
    now rewrite (measure_needs_the_iris landmarks Hshort).
Qed.

(** X14. On every accepted frame the vector has 21 entries; the two
    EARs are its entries 8 and 9, which are -13 and -12 from the end,
    and the face width is the last one. *)
Theorem feature_vector_layout :
  forall landmarks,
    (478 <= length landmarks)%nat ->
    exists m features,
      measure arctan2 landmarks = Some m /\
      extract_eye_features arctan2 landmarks = Some features /\
      length features = 21%nat /\
      nth_error features 8 = Some (left_ear m) /\
      nth_error features 9 = Some (right_ear m) /\
      Py.index features (-13) = Some (left_ear m) /\
      Py.index features (-12) = Some (right_ear m) /\
      Py.index features (-1) = Some (face_width m).
Proof.
  intros landmarks H.
  unfold extract_eye_features, measure, face_width_of.
  rewrite !contour_total
    by (unfold LEFT_EYE, RIGHT_EYE, LEFT_IRIS, RIGHT_IRIS;
        repeat constructor; lia).
  cbn [LEFT_EYE RIGHT_EYE LEFT_IRIS RIGHT_IRIS map firstn nth].
  rewrite !nth_error_at by lia.
  generalize (at_ landmarks). intros L.
  cbn -[Py.float PrimFloat.sqrt PrimFloat.add PrimFloat.sub
        PrimFloat.mul PrimFloat.div].
  do 2 eexists. split; [reflexivity|]. split; [reflexivity|].
  repeat split.
Qed.

End ExtractionMoreFacts.

Lemma extraction_needs_refined_mesh_witness :
  FeatureExtractor.extract_eye_features arctan2_of_frames
    (firstn 468 synthetic_frame) = None /\
  FeatureExtractor.extract_eye_features arctan2_of_frames synthetic_frame
  <> None.
Proof.
  destruct (extraction_needs_refined_mesh arctan2_of_frames
              (firstn 468 synthetic_frame)) as [_ Hshort].
  destruct (extraction_needs_refined_mesh arctan2_of_frames synthetic_frame)
    as [Hlong _].
  split.
  - apply Hshort. rewrite length_firstn. unfold synthetic_frame.
    rewrite length_map, length_seq. lia.
  - intros Hnone. apply Hlong in Hnone. unfold synthetic_frame in Hnone.
    rewrite length_map, length_seq in Hnone. lia.
Defined.

Lemma feature_vector_layout_witness :
  exists m features,
    FeatureExtractor.measure arctan2_of_frames synthetic_frame = Some m /\
    FeatureExtractor.extract_eye_features arctan2_of_frames synthetic_frame
    = Some features /\
    length features = 21%nat /\
    nth_error features 8 = Some (FeatureExtractor.left_ear m) /\
    nth_error features 9 = Some (FeatureExtractor.right_ear m) /\
    Py.index features (-13) = Some (FeatureExtractor.left_ear m) /\
    Py.index features (-12) = Some (FeatureExtractor.right_ear m) /\
    Py.index features (-1) = Some (FeatureExtractor.face_width m).
Proof.
  apply (feature_vector_layout arctan2_of_frames synthetic_frame).
  unfold synthetic_frame. rewrite length_map, length_seq. lia.
Defined.

(* ================================================================== *)
(** * Persistence: what is written, what is read back *)

Section StringFacts.

Local Open Scope string_scope.

Lemma string_append_assoc (a b c : string) : (a ++ b) ++ c = a ++ (b ++ c).
Proof. induction a as [|ch a IH]; cbn; [reflexivity | now rewrite IH]. Qed.

Lemma string_length_append (a b : string) :
  String.length (a ++ b) = (String.length a + String.length b)%nat.
Proof. induction a as [|ch a IH]; cbn; [reflexivity | now rewrite IH]. Qed.

Lemma string_append_inj_l (a b c : string) : a ++ b = a ++ c -> b = c.
Proof.
  induction a as [|ch a IH]; cbn; [trivial|]. intros [= H]. now apply IH.
Qed.

(** Two names that are equal end alike. *)
Lemma string_same_end (a b t u : string) :
  String.length t = String.length u -> a ++ t = b ++ u -> t = u.
Proof.
  revert b. induction a as [|ch a IH]; intros [|ch' b] Hlen; cbn.
  - trivial.
  - intros ->. cbn in Hlen. rewrite string_length_append in Hlen. lia.
  - intros <-. cbn in Hlen. rewrite string_length_append in Hlen. lia.
  - intros [= _ H]. now apply (IH b).
Qed.

(** The three model files of one prefix have different names, and none
    of them can be the blink calibration file. *)
Lemma model_files_differ (prefix : string) :
  prefix ++ "_x.pkl" <> prefix ++ "_y.pkl" /\
  prefix ++ "_x.pkl" <> prefix ++ "_scaler.pkl" /\
  prefix ++ "_y.pkl" <> prefix ++ "_scaler.pkl".
Proof.
  repeat split; intros H; apply string_append_inj_l in H; discriminate H.
Qed.

Lemma calibration_file_differs (p : Profile) (prefix : string) :
  Persistence.calibration_file p <> prefix ++ "_x.pkl" /\
  Persistence.calibration_file p <> prefix ++ "_y.pkl" /\
  Persistence.calibration_file p <> prefix ++ "_scaler.pkl".
Proof.
  unfold Persistence.calibration_file, Persistence.os_path_join.
  change ("/" ++ "blink_calibration.pkl") with ("/blink_calibratio" ++ "n.pkl").
  rewrite <- string_append_assoc.
  repeat split; intros H.
  - change (prefix ++ "_x.pkl") with (prefix ++ ("_" ++ "x.pkl")) in H.
    rewrite <- string_append_assoc in H.
    apply string_same_end in H; [discriminate H | reflexivity].
  - change (prefix ++ "_y.pkl") with (prefix ++ ("_" ++ "y.pkl")) in H.
    rewrite <- string_append_assoc in H.
    apply string_same_end in H; [discriminate H | reflexivity].
  - change (prefix ++ "_scaler.pkl") with (prefix ++ ("_scale" ++ "r.pkl")) in H.
    rewrite <- string_append_assoc in H.
    apply string_same_end in H; [discriminate H | reflexivity].
Qed.

End StringFacts.

Section PersistenceFacts.

Import Persistence.

Lemma load_dump_same (value : Pickle) (name : string) (disk : Disk) :
  Joblib.load (Joblib.dump value name disk) name = Some value.
Proof. cbn. now rewrite String.eqb_refl. Qed.

Lemma load_dump_other (value : Pickle) (name other : string) (disk : Disk) :
  name <> other ->
  Joblib.load (Joblib.dump value name disk) other = Joblib.load disk other.
Proof. intros H. cbn. apply String.eqb_neq in H. now rewrite H. Qed.

(** X15. [save_models] writes nothing and returns [False] unless both
    regressors exist; when they do it returns [True] and leaves the two
    regressors and the scaler readable under the three names of the
    prefix, every other file being as it was. *)
Theorem save_models_needs_both_models :
  forall p filename_prefix disk,
    let prefix := prefix_of p filename_prefix in
    let disk' := fst (save_models p filename_prefix disk) in
    match model_x (tracker p), model_y (tracker p) with
    | Some mx, Some my =>
        snd (save_models p filename_prefix disk) = true /\
        Joblib.load disk' (prefix ++ "_x.pkl") = Some (pickled_regressor mx) /\
        Joblib.load disk' (prefix ++ "_y.pkl") = Some (pickled_regressor my) /\
        Joblib.load disk' (prefix ++ "_scaler.pkl")
        = Some (pickled_scaler (scaler (tracker p))) /\
        forall other,
          other <> (prefix ++ "_x.pkl")%string ->
          other <> (prefix ++ "_y.pkl")%string ->
          other <> (prefix ++ "_scaler.pkl")%string ->
          Joblib.load disk' other = Joblib.load disk other
    | _, _ => save_models p filename_prefix disk = (disk, false)
    end.
Proof.
  intros p filename_prefix disk. cbv zeta. unfold save_models.
  destruct (model_x (tracker p)) as [mx|], (model_y (tracker p)) as [my|];
    try reflexivity.
  cbn [fst snd].
  destruct (model_files_differ (prefix_of p filename_prefix)) as (Hxy & Hxs & Hys).
  split; [reflexivity|]. split; [|split; [|split]].
  - rewrite !load_dump_other by congruence. apply load_dump_same.
  - rewrite load_dump_other by congruence. apply load_dump_same.
  - apply load_dump_same.
  - intros other Hx Hy Hs. now rewrite !load_dump_other by congruence.
Qed.

(** X16. Saving the models and the blink calibration and loading them
    back, into any tracker of the same data directory, succeeds and
    restores both regressors, the scaler and the blink threshold. The
    three attributes that may be absent come back present: an absent
    relative mode as [False], with relative threshold 0.2 and baseline
    0.3. *)
Theorem save_then_load_restores :
  forall p q filename_prefix disk mx my,
    model_x (tracker p) = Some mx ->
    model_y (tracker p) = Some my ->
    data_dir q = data_dir p ->
    let saved := fst (save_blink_calibration p
                        (fst (save_models p filename_prefix disk))) in
    exists q',
      load_models q filename_prefix saved = Some (q', true) /\
      model_x (tracker q') = Some mx /\
      model_y (tracker q') = Some my /\
      scaler (tracker q') = scaler (tracker p) /\
      blink_threshold (tracker q') = blink_threshold (tracker p) /\
      blink_relative_mode (tracker q')
      = Some (match blink_relative_mode (tracker p) with
              | Some m => m
              | None => false
              end) /\
      blink_relative_threshold (tracker q')
      = match blink_relative_mode (tracker p) with
        | Some _ => blink_relative_threshold (tracker p)
        | None => 0.2%Q
        end /\
      blink_baseline q'
      = Some (match blink_baseline p with
              | Some b => b
              | None => 0.3%Q
              end).
Proof.
  intros p q filename_prefix disk mx my Hx Hy Hdir. cbv zeta.
  assert (Hprefix : prefix_of q filename_prefix = prefix_of p filename_prefix)
    by (unfold prefix_of; now rewrite Hdir).
  assert (Hfile : calibration_file q = calibration_file p)
    by (unfold calibration_file; now rewrite Hdir).
  destruct (model_files_differ (prefix_of p filename_prefix)) as (Hxy & Hxs & Hys).
  destruct (calibration_file_differs p (prefix_of p filename_prefix))
    as (Hcx & Hcy & Hcs).
  unfold load_models, save_models, save_blink_calibration.
  rewrite Hprefix, Hfile, Hx, Hy. cbn [fst].
  rewrite (load_dump_other _ _ Hcx), !load_dump_other by congruence.
  rewrite load_dump_same.
  rewrite (load_dump_other _ _ Hcy), load_dump_other by congruence.
  rewrite load_dump_same.
  rewrite (load_dump_other _ _ Hcs), load_dump_same.
  rewrite load_dump_same.
  eexists. split; [reflexivity|].
  cbn [tracker blink_baseline get key_blink_threshold key_blink_relative_mode
       key_blink_baseline key_blink_relative_threshold].
  destruct (tracker q), (tracker p); cbn. repeat split.
Qed.

(** X17. [load_models] is not all or nothing: with the three model
    files of [save_models] on a disk that has no blink calibration
    file, it returns [False] after it has replaced both regressors and
    the scaler; the blink attributes are as before. *)
Theorem load_without_blink_file_replaces_models :
  forall p q filename_prefix disk mx my,
    model_x (tracker p) = Some mx ->
    model_y (tracker p) = Some my ->
    data_dir q = data_dir p ->
    Joblib.load disk (calibration_file q) = None ->
    exists q',
      load_models q filename_prefix (fst (save_models p filename_prefix disk))
      = Some (q', false) /\
      tracker q' = set_models (Some mx) (Some my) (scaler (tracker p)) (tracker q) /\
      blink_baseline q' = blink_baseline q.
Proof.
  intros p q filename_prefix disk mx my Hx Hy Hdir Hnone.
  assert (Hprefix : prefix_of q filename_prefix = prefix_of p filename_prefix)
    by (unfold prefix_of; now rewrite Hdir).
  destruct (model_files_differ (prefix_of p filename_prefix)) as (Hxy & Hxs & Hys).
  destruct (calibration_file_differs q (prefix_of p filename_prefix))
    as (Hcx & Hcy & Hcs).
  unfold load_models, save_models.
  rewrite Hprefix, Hx, Hy. cbn [fst].
  rewrite !load_dump_other by congruence. rewrite load_dump_same.
  rewrite load_dump_other by congruence. rewrite load_dump_same.
  rewrite load_dump_same.
  rewrite !load_dump_other by congruence. rewrite Hnone.
  eexists. split; [reflexivity|]. split; reflexivity.
Qed.

End PersistenceFacts.

Lemma save_then_load_restores_witness :
  let old := mkRegressor 400 18 (scaler_fit [], []) [] in
  let t := set_models (Some old) (Some old) (scaler_fit []) (init 1920 1080 0) in
  let p := mkProfile t None "/home/user/PATHTOCALIBRATIONDATA" in
  let q := mkProfile (init 1280 720 5) None "/home/user/PATHTOCALIBRATIONDATA" in
  let saved := fst (Persistence.save_blink_calibration p
                      (fst (Persistence.save_models p None []))) in
  exists q',
    Persistence.load_models q None saved = Some (q', true) /\
    model_x (tracker q') = Some old /\
    blink_relative_mode (tracker q') = Some false /\
    blink_baseline q' = Some 0.3%Q /\
    screen_width (tracker q') = 1280%Z.
Proof.
  cbv zeta.
  set (old := mkRegressor 400 18 (scaler_fit [], []) []).
  set (p := mkProfile (set_models _ _ _ (init 1920 1080 0)) None _).
  set (q := mkProfile (init 1280 720 5) None _).
  destruct (@save_then_load_restores p q None [] old old eq_refl eq_refl eq_refl)
    as (q' & Hload & Hx & _ & _ & _ & Hmode & _ & Hbase).
  exists q'. split; [exact Hload|]. split; [exact Hx|].
  split; [exact Hmode|]. split; [exact Hbase|].
  vm_compute in Hload. injection Hload as <-. reflexivity.
Defined.

Lemma load_without_blink_file_replaces_models_witness :
  let old := mkRegressor 400 18 (scaler_fit [], []) [] in
  let t := set_models (Some old) (Some old) (scaler_fit []) (init 1920 1080 0) in
  let p := mkProfile t None "/home/user/PATHTOCALIBRATIONDATA" in
  let q := mkProfile (init 1920 1080 5) None "/home/user/PATHTOCALIBRATIONDATA" in
  exists q',
    Persistence.load_models q None (fst (Persistence.save_models p None []))
    = Some (q', false) /\
    model_x (tracker q') = Some old /\ scaler (tracker q') = scaler_fit [].
Proof.
  cbv zeta.
  set (old := mkRegressor 400 18 (scaler_fit [], []) []).
  set (p := mkProfile (set_models _ _ _ (init 1920 1080 0)) None _).
  set (q := mkProfile (init 1920 1080 5) None _).
  destruct (@load_without_blink_file_replaces_models p q None [] old old
              eq_refl eq_refl eq_refl eq_refl) as (q' & Hload & Ht & _).
  exists q'. split; [exact Hload|]. rewrite Ht. split; reflexivity.
Defined.

(* ================================================================== *)
(** * Blink threshold calibration *)

Section BlinkCalibrationFacts.

Import BlinkCalibrator.

Local Open Scope Q_scope.

Lemma minimum_In (a : Q) (l : list Q) : In (minimum a l) (a :: l).
Proof.
  unfold minimum. revert a.
  induction l as [|b l IH]; intros a; cbn [fold_left]; [now left|].
  destruct (IH (Qmin a b)) as [H|H]; [|right; now right].
  rewrite <- H. unfold Qmin, GenericMinMax.gmin.
  destruct (a ?= b); [now left | now left | right; now left].
Qed.

(** What the recording loop keeps true from one pass to the next. *)
Lemma record_blinks_invariant (passes : list BlinkPass) :
  forall r seen,
    blink_count r = length (blink_ear_values r) ->
    (blink_count r <= 5)%nat ->
    incl (blink_ear_values r) seen ->
    incl (current_blink_ears r) seen ->
    let r' := fst (record_blinks passes r) in
    blink_count r' = length (blink_ear_values r') /\
    (blink_count r' <= 5)%nat /\
    incl (blink_ear_values r') (seen ++ held_ears passes).
Proof.
  induction passes as [|pass passes IH]; intros r seen Hc H5 Hv Hcur; cbv zeta.
  - cbn [record_blinks held_ears flat_map]. rewrite app_nil_r.
    destruct (5 <=? blink_count r)%nat; cbn [fst]; repeat split; trivial.
  - cbn [record_blinks].
    destruct (5 <=? blink_count r)%nat eqn:E5.
    { cbn [fst]. repeat split; trivial. now apply incl_appl. }
    apply Nat.leb_gt in E5.
    destruct pass as [[avg_ear key]|].
    + assert (Hstep :
                let r1 := record_pass r avg_ear key in
                let seen1 := seen ++ (if (key =? 32)%Z then [avg_ear] else []) in
                blink_count r1 = length (blink_ear_values r1) /\
                (blink_count r1 <= 5)%nat /\
                incl (blink_ear_values r1) seen1 /\
                incl (current_blink_ears r1) seen1).
      { cbv zeta. unfold record_pass.
        destruct (key =? 32)%Z; cbn [blink_count blink_ear_values
                                       current_blink_ears].
        - repeat split; trivial; [now apply incl_appl|].
          apply incl_app; [now apply incl_appl | apply incl_appr, incl_refl].
        - rewrite app_nil_r.
          destruct (current_blink_ears r) as [|first others] eqn:Ecur;
            cbn [blink_count blink_ear_values current_blink_ears].
          + repeat split; trivial. now rewrite Ecur.
          + rewrite length_app. cbn [length]. repeat split; [lia | lia | |].
            * apply incl_app; [exact Hv|]. intros x [<-|[]].
              apply Hcur. apply minimum_In.
            * intros x []. }
      cbv zeta in Hstep. destruct Hstep as (Hc1 & H51 & Hv1 & Hcur1).
      cbn [held_ears flat_map]. rewrite app_assoc.
      destruct (key =? 27)%Z.
      * cbn [fst]. repeat split; trivial. now apply incl_appl.
      * exact (IH _ _ Hc1 H51 Hv1 Hcur1).
    + cbn [held_ears flat_map app]. exact (IH _ _ Hc H5 Hv Hcur).
Qed.

(** X18. The blink-recording loop counts what it records: whatever
    the passes, the count equals the number of recorded values and
    never exceeds five, and every recorded value is a value seen while
    SPACE was held. *)
Theorem blink_recording_counts_held_values :
  forall passes,
    let r := fst (record_blinks passes recording_start) in
    blink_count r = length (blink_ear_values r) /\
    (blink_count r <= 5)%nat /\
    incl (blink_ear_values r) (held_ears passes).
Proof.
  intros passes.
  apply (record_blinks_invariant passes recording_start (seen := []));
    cbn; try lia; intros x [].
Qed.


Lemma detect_blink_ignores_threshold_in_relative_mode
    (s : EyeTrackerCursor) (v avg_ear : Q) :
  blink_relative_mode s = Some true ->
  snd (Control.detect_blink (set_blink_threshold v s) avg_ear)
  = snd (Control.detect_blink s avg_ear).
Proof.
  intros H. unfold Control.detect_blink.
  destruct s as [f1 f2 f3 f4 f5 f6 f7 f8 f9 f10 f11 f12 f13 f14 f15 f16 f17 f18
                   f19 f20].
  cbn [blink_relative_mode] in H. subst f17.
  cbn [set_blink_threshold blink_relative_mode ear_history set_ear_history
       blink_relative_threshold snd].
  match goal with |- context [if ?c then _ else _] => now destruct c end.
Qed.

(** X20. [calibrate_blink_threshold] never leaves relative mode. When
    the tracker is in relative mode and the new calibration finds
    baseline and blinks at least 0.05 apart, it sets the absolute
    threshold and nothing else: relative mode and its threshold stay,
    and the verdict of the blink detector is the same as before the
    calibration for every EAR. *)
Theorem recalibration_keeps_relative_mode :
  forall p baseline blink_ear_values disk,
    blink_relative_mode (tracker p) = Some true ->
    (10 < length baseline)%nat -> (3 <= length blink_ear_values)%nat ->
    let avg_baseline :=
      mean (slice (Control.sort baseline)
              (Py.trunc (inject_Z (Z.of_nat (length (Control.sort baseline))) * 0.1))
              (Py.trunc (inject_Z (Z.of_nat (length (Control.sort baseline))) * 0.9))) in
    let avg_blink_min := mean blink_ear_values in
    0.05 <= Qabs (avg_baseline - avg_blink_min) ->
    let p' := fst (fst (personalize p baseline blink_ear_values disk)) in
    snd (personalize p baseline blink_ear_values disk) = true /\
    tracker p'
    = set_blink_threshold ((avg_baseline + avg_blink_min) / 2) (tracker p) /\
    blink_relative_mode (tracker p') = Some true /\
    blink_relative_threshold (tracker p')
    = blink_relative_threshold (tracker p) /\
    forall avg_ear,
      snd (Control.detect_blink (tracker p') avg_ear)
      = snd (Control.detect_blink (tracker p) avg_ear).
Proof.
  intros p baseline blinks disk Hrel Hb Hk. cbv zeta. intros Hgap.
  unfold personalize.
  apply Nat.ltb_lt in Hb. apply Nat.leb_le in Hk. rewrite Hb, Hk. cbn [andb].
  cbv zeta. apply Qltb_ge in Hgap. rewrite Hgap. cbn [fst snd tracker set_tracker].
  split; [reflexivity|]. split; [reflexivity|].
  split; [now destruct (tracker p)|]. split; [now destruct (tracker p)|].
  intros avg_ear. now apply detect_blink_ignores_threshold_in_relative_mode.
Qed.


Lemma recalibration_keeps_relative_mode_witness :
  let t := set_blink_relative (Some true) 0.2 (init 1920 1080 0) in
  let p := mkProfile t None "/home/user/PATHTOCALIBRATIONDATA" in
  let p' := fst (fst (personalize p (repeat 0.3 11) [0.1; 0.1; 0.1] [])) in
  blink_relative_mode (tracker p') = Some true /\
  blink_threshold (tracker p') == 0.2.
Proof.
  cbv zeta.
  set (p := mkProfile (set_blink_relative _ _ (init 1920 1080 0)) None _).
  destruct (@recalibration_keeps_relative_mode p (repeat 0.3 11)
              [0.1; 0.1; 0.1] [] eq_refl)
    as (_ & Ht & Hrel & _).
  - cbn. lia.
  - cbn. lia.
  - vm_compute. discriminate.
  - split; [exact Hrel|]. rewrite Ht. vm_compute. reflexivity.
Defined.

End BlinkCalibrationFacts.
